(** * Authorization and tenant cache of the Cloudflare manager bot

    A shallow embedding of [CloudflareManager] (src/handlers.py, lines 19-250)
    and of the tables it reads (src/models.py), with the properties of the
    authorization predicates and of the cache refresh.
    The command handlers of lines 449-737 that act on the store and on the
    cache (refresh, add_tenant, connect_cf, tenant_info) are embedded too.

    Conventions.
    - A Python [int] is a [Z]; [str(n)] is the decimal rendering [py_str].
    - [x | None] is an [option]; truthiness is written out ([truthy_*]).
    - A table is a finite map from its primary key to the other columns.
    - The manager's attributes, the database behind [db_url] and the list of
      remote calls issued so far form one [State], threaded explicitly.
    - The provider's answers live in a small universe of Python values,
      [PyVal], with the attribute tests the code performs on them. *)

From stdpp Require Import gmap strings list fin_maps pretty.

Set Warnings "-register-all".
Open Scope Z_scope.

(* ===================================================================== *)
(** ** Python scalars *)

(** [str(n)] for an [int]: an optional minus sign and the decimal digits. *)
Definition py_str (n : Z) : string := pretty n.

(** Truthiness of an [int | None]: [None] and [0] are falsy. *)
Definition truthy_int (o : option Z) : bool :=
  match o with
  | None => false
  | Some n => negb (n =? 0)
  end.

(** Truthiness of a [str | None]: [None] and the empty string are falsy. *)
Definition truthy_str (o : option string) : bool :=
  match o with
  | None => false
  | Some s => negb (String.eqb s "")
  end.

(** [a == b] between two [str | None] values. *)
Definition str_eq (a b : option string) : bool := bool_decide (a = b).

(* ===================================================================== *)
(** ** Tables (src/models.py) *)

(** A row of [tenants]; the primary key [id] is the key of the table. *)
Record Tenant := {
  name : string;
  cloudflare_token : string;
  admin_user_id : string;
  description : option string;
  is_active : option bool;          (* nullable Boolean, default True *)
  created_at : option Z;
}.

(** A row of [bot_config]; the primary key [key] is the key of the table. *)
Record BotConfig := {
  value : option string;            (* nullable Text *)
  updated_at : option Z;
}.

(** The condition [is_active = 'true'] / [is_active IS true] of the queries:
    a NULL flag is not active. *)
Definition active (t : Tenant) : bool :=
  match is_active t with
  | Some true => true
  | _ => false
  end.

(* ===================================================================== *)
(** ** Python values returned by the provider's client

    The code never trusts the shape of an answer: it tests for a [result]
    attribute, for lists, strings and iterables, and for the attributes
    [account], [id] and [name] of each element.  [PyVal] has exactly the
    values those tests tell apart.  Identifiers ([id], [name]) are strings or
    [None], as the client library declares them. *)

(** An attribute of an object: absent ([hasattr] is false) or set. *)
Inductive attr (A : Type) : Type :=
| Missing
| Has (a : A).
Arguments Missing {A}.
Arguments Has {A} a.

(** A dictionary key or identifier: [None] or a [str]. *)
Abbreviation Key := (option string).

Inductive PyVal : Type :=
| PyNone
| PyStr (s : string)
| PyList (items : list PyVal)
| PyTuple (items : list PyVal)
| PyObj (o_id o_name : attr Key)
        (o_account o_result : attr PyVal)
        (o_iter : option (list PyVal))      (* items of [__iter__], if any *)
        (o_status : string).                (* the rest of the object *)

(** [bool(v)]: objects are truthy, containers when non-empty. *)
Definition truthy (v : PyVal) : bool :=
  match v with
  | PyNone => false
  | PyStr s => negb (String.eqb s "")
  | PyList l | PyTuple l => match l with [] => false | _ => true end
  | PyObj _ _ _ _ _ _ => true
  end.

Definition is_has {A} (a : attr A) : bool :=
  match a with Missing => false | Has _ => true end.

(** [hasattr(v, "id")], [hasattr(v, "name")] and [hasattr(v, "__iter__")]. *)
Definition hasattr_id (v : PyVal) : bool :=
  match v with PyObj i _ _ _ _ _ => is_has i | _ => false end.
Definition hasattr_name (v : PyVal) : bool :=
  match v with PyObj _ n _ _ _ _ => is_has n | _ => false end.
Definition hasattr_iter (v : PyVal) : bool :=
  match v with
  | PyNone => false
  | PyStr _ | PyList _ | PyTuple _ => true
  | PyObj _ _ _ _ it _ => match it with Some _ => true | None => false end
  end.

(** Attribute reads; [None] stands for [AttributeError]. *)
Definition get_result (v : PyVal) : option PyVal :=
  match v with PyObj _ _ _ (Has r) _ _ => Some r | _ => None end.
Definition get_account (v : PyVal) : option PyVal :=
  match v with PyObj _ _ (Has a) _ _ _ => Some a | _ => None end.
Definition get_id (v : PyVal) : option Key :=
  match v with PyObj (Has i) _ _ _ _ _ => Some i | _ => None end.
Definition get_name (v : PyVal) : option Key :=
  match v with PyObj _ (Has n) _ _ _ _ => Some n | _ => None end.

Definition isinstance_list (v : PyVal) : bool :=
  match v with PyList _ => true | _ => false end.
Definition isinstance_str (v : PyVal) : bool :=
  match v with PyStr _ => true | _ => false end.

(** The items [for x in v] runs through, for the iterables that are not
    strings (the code never iterates a string). *)
Definition py_iter (v : PyVal) : list PyVal :=
  match v with
  | PyList l | PyTuple l => l
  | PyObj _ _ _ _ (Some l) _ => l
  | _ => []
  end.

(** [v[0]] on a list; [None] stands for [IndexError]. *)
Definition py_first (v : PyVal) : option PyVal :=
  match v with PyList (x :: _) => Some x | _ => None end.

(** [hasattr(v, "result") and v.result]: the truthy [result], if there is
    one.  Likewise for [account]. *)
Definition truthy_result (v : PyVal) : option PyVal :=
  match get_result v with
  | Some r => if truthy r then Some r else None
  | None => None
  end.
Definition truthy_account (v : PyVal) : option PyVal :=
  match get_account v with
  | Some a => if truthy a then Some a else None
  | None => None
  end.

(* ===================================================================== *)
(** ** Exceptions and the remote gateway *)

(** Subclasses of [Exception], the ones [except Exception] catches. *)
Inductive Exn : Type :=
| UpstreamError (msg : string)
| AttributeError (attribute : string)
| IndexError.

Inductive Outcome (A : Type) : Type :=
| Returns (a : A)
| Raises (e : Exn).
Arguments Returns {A} a.
Arguments Raises {A} e.

(** The three remote listings of the client built from an API token. *)
Record Gateway := {
  zones_list : string -> Outcome PyVal;
  accounts_list : string -> Outcome PyVal;
  tunnels_list : string -> Key -> Outcome PyVal;
}.

Inductive GatewayCall : Type :=
| CallZonesList (api_token : string)
| CallAccountsList (api_token : string)
| CallTunnelsList (api_token : string) (account_id : Key).

(* ===================================================================== *)
(** ** State *)

(** The value of [tenants_cache[tenant_id]]. *)
Record CacheEntry := {
  ce_tenant : Z * Tenant;
  ce_domains : gmap Key PyVal;
  ce_zones : gmap Key PyVal;
  ce_tunnels : gmap Key PyVal;
  ce_account_id : Key;
}.

Record State := {
  (* attributes of the manager *)
  super_admin_id : option string;
  SessionLocal : bool;              (* is the session factory set? *)
  tenants_cache : gmap Z CacheEntry;
  (* the database behind db_url *)
  bot_config : gmap string BotConfig;
  tenants : gmap Z Tenant;
  (* remote calls issued so far, oldest first *)
  gateway_calls : list GatewayCall;
}.

Definition set_super_admin_id (v : option string) (s : State) : State :=
  {| super_admin_id := v; SessionLocal := SessionLocal s;
     tenants_cache := tenants_cache s; bot_config := bot_config s;
     tenants := tenants s; gateway_calls := gateway_calls s |}.

Definition set_bot_config (c : gmap string BotConfig) (s : State) : State :=
  {| super_admin_id := super_admin_id s; SessionLocal := SessionLocal s;
     tenants_cache := tenants_cache s; bot_config := c;
     tenants := tenants s; gateway_calls := gateway_calls s |}.

Definition set_tenants_cache (c : gmap Z CacheEntry) (s : State) : State :=
  {| super_admin_id := super_admin_id s; SessionLocal := SessionLocal s;
     tenants_cache := c; bot_config := bot_config s;
     tenants := tenants s; gateway_calls := gateway_calls s |}.

Definition record_calls (cs : list GatewayCall) (s : State) : State :=
  {| super_admin_id := super_admin_id s; SessionLocal := SessionLocal s;
     tenants_cache := tenants_cache s; bot_config := bot_config s;
     tenants := tenants s; gateway_calls := gateway_calls s ++ cs |}.

(** The manager right after [__init__], over a given database. *)
Definition init (admin : option string) (cfg : gmap string BotConfig)
    (tbl : gmap Z Tenant) : State :=
  {| super_admin_id := admin; SessionLocal := false; tenants_cache := ∅;
     bot_config := cfg; tenants := tbl; gateway_calls := [] |}.

(** What [bot.py] does next: it installs the session factory. *)
Definition connect (s : State) : State :=
  {| super_admin_id := super_admin_id s; SessionLocal := true;
     tenants_cache := tenants_cache s; bot_config := bot_config s;
     tenants := tenants s; gateway_calls := gateway_calls s |}.

(* ===================================================================== *)
(** ** Configuration and authorization (handlers.py, lines 55-148) *)

Section Manager.

(** The reading of [datetime.utcnow()] and the remote provider. *)
Context (utcnow : Z) (cf : Gateway).

(** [set_config]: an upsert of the row [key]. *)
Definition set_config (key val : string) (s : State) : State :=
  if negb (SessionLocal s) then s
  else
    set_bot_config
      (<[key := {| value := Some val; updated_at := Some utcnow |}]>
         (bot_config s)) s.

(** [get_config]. *)
Definition get_config (key : string) (s : State) : option string :=
  if negb (SessionLocal s) then None
  else
    match bot_config s !! key with
    | Some config => value config
    | None => None
    end.

(** [is_super_admin]: the answer and the state it leaves. *)
Definition is_super_admin (user_id : Z) (s : State) : bool * State :=
  if negb (truthy_str (super_admin_id s)) then
    if negb (SessionLocal s) then (false, s)
    else
      match bot_config s !! "super_admin_id"%string with
      | Some admin_config =>
          let s1 := set_super_admin_id (value admin_config) s in
          (str_eq (Some (py_str user_id)) (super_admin_id s1), s1)
      | None =>
          let s1 := set_config "super_admin_id" (py_str user_id) s in
          let s2 := set_super_admin_id (Some (py_str user_id)) s1 in
          (true, s2)
      end
  else (str_eq (Some (py_str user_id)) (super_admin_id s), s).

(** The two queries of [is_tenant_admin], as [fetchone] sees them.  The
    literal ['true'] is read as the Boolean it denotes. *)
Definition select_admin_user_id (tenant_id : Z) (s : State) : option string :=
  match tenants s !! tenant_id with
  | Some t => if active t then Some (admin_user_id t) else None
  | None => None
  end.

Definition count_tenants_of (user : string) (s : State) : nat :=
  length (filter (λ kt, active kt.2 = true ∧ admin_user_id kt.2 = user)
                 (map_to_list (tenants s))).

(** [is_tenant_admin]; it reads the state and leaves it as it is. *)
Definition is_tenant_admin (user_id : Z) (tenant_id : option Z) (s : State)
    : bool :=
  if negb (SessionLocal s) then false
  else
    match tenant_id with
    | Some tid =>
        if truthy_int tenant_id then
          (* check specific tenant *)
          match select_admin_user_id tid s with
          | Some tenant_row => bool_decide (tenant_row = py_str user_id)
          | None => false
          end
        else bool_decide (0 < count_tenants_of (py_str user_id) s)%nat
    | None => bool_decide (0 < count_tenants_of (py_str user_id) s)%nat
    end.

(** [has_access]. *)
Definition has_access (user_id : Z) (tenant_id : option Z) (s : State)
    : bool * State :=
  let '(super, s1) := is_super_admin user_id s in
  if super then (true, s1)
  else if truthy_int tenant_id then
    (is_tenant_admin user_id tenant_id s1, s1)
  else (is_tenant_admin user_id None s1, s1).

(** [select(Tenant).where(...)]: the rows a statement selects. *)
Definition select_tenants (where_ : Tenant -> bool) (s : State)
    : list (Z * Tenant) :=
  filter (λ kt, where_ kt.2 = true) (map_to_list (tenants s)).

(** [get_tenants]: the selected rows, each with its id. *)
Definition get_tenants (user_id : option Z) (s : State)
    : list (Z * Tenant) * State :=
  if negb (SessionLocal s) then ([], s)
  else
    let '(stmt, s1) :=
      match user_id with
      | Some u =>
          if truthy_int user_id then
            let '(super, s1) := is_super_admin u s in
            if negb super then
              (* tenant admin - only their tenants *)
              (λ t, bool_decide (admin_user_id t = py_str u), s1)
            else (λ _, true, s1)
          else (λ _, true, s)
      | None => (λ _, true, s)
      end in
    (select_tenants (λ t, stmt t && active t) s1, s1).

(** [get_tenant_by_id]: the row with that id, whatever its flag. *)
Definition get_tenant_by_id (tenant_id : Z) (s : State) : option Tenant :=
  if negb (SessionLocal s) then None
  else tenants s !! tenant_id.

(* ===================================================================== *)
(** ** Cache refresh (handlers.py, lines 150-250) *)

(** Lines 164-165 and 168-169: the account id a zone carries, [account_id]
    being the value held so far. *)
Definition account_id_of_zone (zone : PyVal) (account_id : Key)
    : Outcome Key :=
  match truthy_account zone with
  | Some account =>
      match get_id account with
      | Some i => Returns i
      | None => Raises (AttributeError "id")
      end
  | None => Returns account_id
  end.

(** Lines 161-169: the account id read off the zone listing. *)
Definition account_id_of_zones (zones : PyVal) : Outcome Key :=
  let account_id : Key := None in
  match truthy_result zones with
  | Some result =>
      if isinstance_list result then
        match py_first result with
        | Some zone => account_id_of_zone zone account_id
        | None => Raises IndexError
        end
      else account_id_of_zone result account_id
  | None =>
      if isinstance_list zones && truthy zones then
        match py_first zones with
        | Some zone => account_id_of_zone zone account_id
        | None => Raises IndexError
        end
      else Returns account_id
  end.

(** Lines 175-176: the id of the first listed account. *)
Definition first_account_id (accounts : PyVal) (account_id : Key)
    : Outcome Key :=
  match truthy_result accounts with
  | Some result =>
      if isinstance_list result then
        match py_first result with
        | Some account =>
            match get_id account with
            | Some i => Returns i
            | None => Raises (AttributeError "id")
            end
        | None => Raises IndexError
        end
      else
        match get_id result with
        | Some i => Returns i
        | None => Raises (AttributeError "id")
        end
  | None => Returns account_id
  end.

(** Lines 171-178: the fallback, with the remote calls it issues; every
    failure in it is only logged. *)
Definition fallback_account_id (api_token : string) (account_id : Key)
    : Key * list GatewayCall :=
  if negb (truthy_str account_id) then
    let calls := [CallAccountsList api_token] in
    match accounts_list cf api_token with
    | Returns accounts =>
        match first_account_id accounts account_id with
        | Returns a => (a, calls)
        | Raises _ => (account_id, calls)
        end
    | Raises _ => (account_id, calls)
    end
  else (account_id, []).

(** Lines 181-192: the tunnels of the account, with the remote calls issued;
    a failure is only logged. *)
Definition fetch_tunnels (api_token : string) (account_id : Key)
    : PyVal * list GatewayCall :=
  let tunnels := PyList [] in
  if truthy_str account_id then
    let calls := [CallTunnelsList api_token account_id] in
    match tunnels_list cf api_token account_id with
    | Returns t => (t, calls)
    | Raises _ => (tunnels, calls)
    end
  else (tunnels, []).

(** Lines 199-208 and 211-220: an answer turned into a list of elements. *)
Definition as_list (v : PyVal) : list PyVal :=
  match truthy_result v with
  | Some result =>
      if hasattr_iter result && negb (isinstance_str result)
      then py_iter result
      else [result]
  | None =>
      if hasattr_iter v && negb (isinstance_str v) then py_iter v
      else if truthy v then [v] else []
  end.

(** Lines 226-229: one round of the loop over [zones_list], on the pair
    [(zones_dict, domains_dict)]. *)
Definition index_zone (acc : gmap Key PyVal * gmap Key PyVal) (zone : PyVal)
    : gmap Key PyVal * gmap Key PyVal :=
  if hasattr_id zone && hasattr_name zone then
    match get_id zone, get_name zone with
    | Some i, Some n => (<[i := zone]> acc.1, <[n := zone]> acc.2)
    | _, _ => acc
    end
  else acc.

Definition index_zones (zones_list : list PyVal)
    : gmap Key PyVal * gmap Key PyVal :=
  foldl index_zone (∅, ∅) zones_list.

(** Lines 231-233: one round of the loop over [tunnels_list]. *)
Definition index_tunnel (acc : gmap Key PyVal) (tunnel : PyVal)
    : gmap Key PyVal :=
  if hasattr_id tunnel then
    match get_id tunnel with
    | Some i => <[i := tunnel]> acc
    | None => acc
    end
  else acc.

Definition index_tunnels (tunnels_list : list PyVal) : gmap Key PyVal :=
  foldl index_tunnel ∅ tunnels_list.

(** Lines 195-241: the entry built from the two answers. *)
Definition build_entry (tenant_id : Z) (tenant : Tenant)
    (zones tunnels : PyVal) (account_id : Key) : CacheEntry :=
  let zones_list := as_list zones in
  let tunnels_list := as_list tunnels in
  let '(zones_dict, domains_dict) := index_zones zones_list in
  let tunnels_dict := index_tunnels tunnels_list in
  {| ce_tenant := (tenant_id, tenant);
     ce_domains := domains_dict;
     ce_zones := zones_dict;
     ce_tunnels := tunnels_dict;
     ce_account_id := account_id |}.

(** [refresh_tenant_domains]: how the call ends and the state it leaves.
    Building the client does not fail; an exception of the [try] block is
    logged and raised again. *)
Definition refresh_tenant_domains (tenant_id : Z) (s : State)
    : Outcome unit * State :=
  match get_tenant_by_id tenant_id s with
  | None => (Returns tt, s)
  | Some tenant =>
      let api_token := cloudflare_token tenant in
      let s1 := record_calls [CallZonesList api_token] s in
      match zones_list cf api_token with
      | Raises e => (Raises e, s1)
      | Returns zones =>
          match account_id_of_zones zones with
          | Raises e => (Raises e, s1)
          | Returns account_id =>
              let '(account_id, calls2) :=
                fallback_account_id api_token account_id in
              let '(tunnels, calls3) := fetch_tunnels api_token account_id in
              let s3 := record_calls (calls2 ++ calls3) s1 in
              let entry :=
                build_entry tenant_id tenant zones tunnels account_id in
              (Returns tt,
               set_tenants_cache (<[tenant_id := entry]> (tenants_cache s3))
                                 s3)
          end
      end
  end.

End Manager.

(* ===================================================================== *)
(** ** Operations as events

    A caller reaches the subsystem through these operations, each with the
    clock reading and the provider it runs against. *)

Inductive Op : Type :=
| OpIsSuperAdmin (user_id : Z)
| OpIsTenantAdmin (user_id : Z) (tenant_id : option Z)
| OpHasAccess (user_id : Z) (tenant_id : option Z)
| OpGetTenants (user_id : option Z)
| OpRefresh (tenant_id : Z).

Definition run_op (utcnow : Z) (cf : Gateway) (op : Op) (s : State) : State :=
  match op with
  | OpIsSuperAdmin u => (is_super_admin utcnow u s).2
  | OpIsTenantAdmin _ _ => s
  | OpHasAccess u t => (has_access utcnow u t s).2
  | OpGetTenants u => (get_tenants utcnow u s).2
  | OpRefresh t => (refresh_tenant_domains cf t s).2
  end.

Definition run_ops (ops : list (Z * Gateway * Op)) (s : State) : State :=
  foldl (λ st e, run_op e.1.1 e.1.2 e.2 st) s ops.

(** The super admin [a] is settled: known in memory and stored. *)
Definition settled (a : string) (s : State) : Prop :=
  super_admin_id s = Some a ∧ a ≠ ""%string ∧ SessionLocal s = true ∧
  get_config "super_admin_id" s = Some a.

(* ===================================================================== *)
(** ** Sample data *)

Definition acme : Tenant :=
  {| name := "Acme"; cloudflare_token := "tok_abc"; admin_user_id := "42";
     description := None; is_active := Some true; created_at := None |}.

Definition globex : Tenant :=
  {| name := "Globex"; cloudflare_token := "tok_xyz"; admin_user_id := "43";
     description := Some "second workspace"%string; is_active := Some true;
     created_at := None |}.

Definition retired : Tenant :=
  {| name := "Initech"; cloudflare_token := "tok_old"; admin_user_id := "44";
     description := None; is_active := Some false; created_at := None |}.

Definition sample_tenants : gmap Z Tenant :=
  {[ 7 := acme; 8 := globex; 9 := retired ]}.

(** A manager that was built but never given a session factory. *)
Definition unconnected : State := init None ∅ sample_tenants.

(** The same manager once [bot.py] has connected it. *)
Definition connected : State := connect unconnected.

(** A provider whose every listing fails. *)
Definition cf_down : Gateway :=
  {| zones_list := λ _, Raises (UpstreamError "401");
     accounts_list := λ _, Raises (UpstreamError "401");
     tunnels_list := λ _ _, Raises (UpstreamError "401") |}.

(** Provider objects: a zone with its account, a zone without one, and a
    tunnel. *)
Definition account_obj (i : string) : PyVal :=
  PyObj (Has (Some i)) Missing Missing Missing None "".

Definition zone_obj (i n : string) (status : string) : PyVal :=
  PyObj (Has (Some i)) (Has (Some n)) (Has (account_obj "acc1")) Missing None
        status.

Definition tunnel_obj (i n : string) : PyVal :=
  PyObj (Has (Some i)) (Has (Some n)) Missing Missing None "healthy".

(** A page of the client library: the items under [result], iterable. *)
Definition page (items : list PyVal) : PyVal :=
  PyObj Missing Missing Missing (Has (PyList items)) (Some items) "".

(** A provider that lists the given zones and tunnels. *)
Definition cf_with (zones tunnels : list PyVal) : Gateway :=
  {| zones_list := λ _, Returns (page zones);
     accounts_list := λ _, Raises (UpstreamError "403");
     tunnels_list := λ _ _, Returns (page tunnels) |}.

(** A provider that lists zones but whose tunnel listing fails. *)
Definition cf_no_tunnels (zones : list PyVal) : Gateway :=
  {| zones_list := λ _, Returns (page zones);
     accounts_list := λ _, Raises (UpstreamError "403");
     tunnels_list := λ _ _, Raises (UpstreamError "tunnels not enabled") |}.

(* ===================================================================== *)
(** ** Vocabulary of the cache properties *)

(** The elements the loop of lines 226-229 indexes, with the two keys it
    files each under: those that have both an [id] and a [name]. *)
Definition indexed_zones (zones_list : list PyVal)
    : list (Key * Key * PyVal) :=
  omap (λ zone, match get_id zone, get_name zone with
                | Some i, Some n => Some (i, n, zone)
                | _, _ => None
                end) zones_list.

(** The elements the loop of lines 231-233 indexes: those with an [id]. *)
Definition indexed_tunnels (tunnels_list : list PyVal)
    : list (Key * PyVal) :=
  omap (λ tunnel, (λ i, (i, tunnel)) <$> get_id tunnel) tunnels_list.

Definition by_id (e : Key * Key * PyVal) : Key * PyVal := (e.1.1, e.2).
Definition by_name (e : Key * Key * PyVal) : Key * PyVal := (e.1.2, e.2).

(** The ids, and the names, of the indexed zones are pairwise distinct. *)
Definition distinct_keys (zones_list : list PyVal) : Prop :=
  NoDup (by_id <$> indexed_zones zones_list).*1 ∧
  NoDup (by_name <$> indexed_zones zones_list).*1.

(** The objects a dictionary holds. *)
Definition held (d : gmap Key PyVal) (v : PyVal) : Prop :=
  ∃ k, d !! k = Some v.

(* ===================================================================== *)
(** ** Command handlers (handlers.py, lines 449-737)

    A handler receives the chat update and the words that follow the
    command.  It answers with replies; a reply is identified by the
    [reply_text] call that sends it and carries the values its text
    interpolates.  The words of a command are ASCII text. *)

(** [c] is one of the characters [0] to [9]. *)
Definition is_digit (c : Ascii.ascii) : bool :=
  ((48 <=? Ascii.N_of_ascii c) && (Ascii.N_of_ascii c <=? 57))%N.

Fixpoint all_digits (s : string) : bool :=
  match s with
  | EmptyString => true
  | String c rest => is_digit c && all_digits rest
  end.

(** [s.isdigit()]: at least one character, all of them digits. *)
Definition isdigit (s : string) : bool :=
  negb (String.eqb s "") && all_digits s.

Fixpoint digits_acc (acc : N) (s : string) : N :=
  match s with
  | EmptyString => acc
  | String c rest => digits_acc (10 * acc + (Ascii.N_of_ascii c - 48))%N rest
  end.

(** [int(s)] for a string that passed [isdigit]. *)
Definition int_of_digits (s : string) : Z := Z.of_N (digits_acc 0 s).

(** [" ".join(words)]. *)
Fixpoint join_space (words : list string) : string :=
  match words with
  | [] => ""
  | [w] => w
  | w :: rest => w +:+ " " +:+ join_space rest
  end.

(** [description or 'N/A']. *)
Definition or_na (d : option string) : string :=
  if truthy_str d then default ""%string d else "N/A"%string.

(** [update.effective_user] (its [id] and [username]) and whether the update
    has a message to reply to. *)
Record User := {
  tg_id : Z;
  tg_username : option string;
}.

Record Update := {
  effective_user : option User;
  message : bool;
}.

(** What lines 718-735 report about a tenant. *)
Record TenantInfo := {
  info_id : Z;
  info_name : string;
  info_admin : string;
  info_description : string;
  info_connected : bool;            (* has_token *)
  info_loaded : bool;               (* in_cache *)
  info_created : Z;
  info_active : bool;
  info_counts : option (nat * nat); (* domains and tunnels, when cached *)
}.

Inductive Reply : Type :=
| ReplyNoTenantsFound                                   (* line 459 *)
| ReplyRefreshing                                       (* line 462 *)
| ReplyCacheRefreshed (refreshed_count total : nat)     (* line 473 *)
| ReplyAdminRequired                                    (* line 487 *)
| ReplyAddTenantUsage                                   (* line 493 *)
| ReplyAdminIdNotNumber                                 (* line 512 *)
| ReplyDatabaseNotAvailable                             (* lines 518, 624 *)
| ReplyTenantExists (tenant_name : string)              (* line 527 *)
| ReplyTenantCreated (new_id : Z)
    (tenant_name admin description : string)            (* line 543 *)
| ReplyCreateFailed                                     (* line 555 *)
| ReplyConnectUsage                                     (* line 568 *)
| ReplyTenantIdNotNumber                                (* line 589 *)
| ReplyAccessDenied                                     (* lines 596, 706 *)
| ReplyTenantNotFound (tenant_id : Z)                   (* lines 602, 711 *)
| ReplyInvalidToken                                     (* line 611 *)
| ReplyConnected (tenant_name : string) (tenant_id : Z) (* line 643 *)
| ReplySaveFailed                                       (* line 653 *)
| ReplyTokenRequired (tenant_name : string) (tenant_id : Z) (* line 657 *)
| ReplyTenantInfoUsage                                  (* line 699 *)
| ReplyTenantInfo (info : TenantInfo).                  (* line 737 *)

Definition set_tenants (tbl : gmap Z Tenant) (s : State) : State :=
  {| super_admin_id := super_admin_id s; SessionLocal := SessionLocal s;
     tenants_cache := tenants_cache s; bot_config := bot_config s;
     tenants := tbl; gateway_calls := gateway_calls s |}.


Definition is_returns {A} (o : Outcome A) : bool :=
  match o with Returns _ => true | Raises _ => false end.

Section Handlers.

Context (utcnow : Z) (cf : Gateway).


(** Lines 465-471: one round of the loop of [refresh_command], on the pair
    of [refreshed_count] and the state. *)
Definition refresh_one (acc : nat * State) (tenant : Z * Tenant)
    : nat * State :=
  let tenant_id := tenant.1 in
  match refresh_tenant_domains cf tenant_id acc.2 with
  | (Returns _, s') => (S acc.1, s')
  | (Raises _, s') => (acc.1, s')
  end.

(** [refresh_command]. *)
Definition refresh_command (update : Update) (s : State)
    : list Reply * State :=
  match effective_user update with
  | None => ([], s)
  | Some user =>
      if negb (message update) then ([], s)
      else
        let '(tenants, s1) := get_tenants utcnow (Some (tg_id user)) s in
        match tenants with
        | [] => ([ReplyNoTenantsFound], s1)
        | _ :: _ =>
            let '(refreshed_count, s2) := foldl refresh_one (0%nat, s1) tenants in
            ([ReplyRefreshing;
              ReplyCacheRefreshed refreshed_count (length tenants)], s2)
        end
  end.

(** [add_tenant_command]; [new_id] is the id the database gives the new
    row.  An exception of the [try] block ends in the reply of line 555. *)
Definition add_tenant_command (new_id : Z) (update : Update)
    (args : option (list string)) (s : State) : list Reply * State :=
  match effective_user update with
  | None => ([], s)
  | Some user =>
      if negb (message update) then ([], s)
      else
        let '(super, s1) := is_super_admin utcnow (tg_id user) s in
        if negb super then ([ReplyAdminRequired], s1)
        else
          match args with
          | Some (tenant_name :: admin :: more) =>
              let descr :=
                match more with
                | [] => None
                | _ :: _ => Some (join_space more)
                end in
              if negb (isdigit admin) then ([ReplyAdminIdNotNumber], s1)
              else if negb (SessionLocal s1)
              then ([ReplyDatabaseNotAvailable], s1)
              else
                match select_tenants
                        (λ t, bool_decide (name t = tenant_name)) s1 with
                | [] =>
                    match tenants s1 !! new_id with
                    | Some _ => ([ReplyCreateFailed], s1)
                    | None =>
                        let new_tenant :=
                          {| name := tenant_name; cloudflare_token := "";
                             admin_user_id := admin; description := descr;
                             is_active := Some true;
                             created_at := Some utcnow |} in
                        ([ReplyTenantCreated new_id tenant_name admin
                            (or_na descr)],
                         set_tenants (<[new_id := new_tenant]> (tenants s1))
                                     s1)
                    end
                | [_] => ([ReplyTenantExists tenant_name], s1)
                | _ :: _ :: _ => ([ReplyCreateFailed], s1)
                end
          | _ => ([ReplyAddTenantUsage], s1)
          end
  end.


(** [tenant_info_command]; formatting a missing creation time raises. *)
Definition tenant_info_command (update : Update)
    (args : option (list string)) (s : State)
    : Outcome (list Reply) * State :=
  match effective_user update with
  | None => (Returns [], s)
  | Some user =>
      if negb (message update) then (Returns [], s)
      else
        match args with
        | None | Some [] => (Returns [ReplyTenantInfoUsage], s)
        | Some (arg :: _) =>
            if negb (isdigit arg) then (Returns [ReplyTenantInfoUsage], s)
            else
              let tenant_id := int_of_digits arg in
              let '(granted, s1) :=
                has_access utcnow (tg_id user) (Some tenant_id) s in
              if negb granted then (Returns [ReplyAccessDenied], s1)
              else
                match get_tenant_by_id tenant_id s1 with
                | None => (Returns [ReplyTenantNotFound tenant_id], s1)
                | Some tenant =>
                    let has_token :=
                      negb (String.eqb (cloudflare_token tenant) "") in
                    let in_cache := tenants_cache s1 !! tenant_id in
                    match created_at tenant with
                    | None => (Raises (AttributeError "strftime"), s1)
                    | Some created =>
                        (Returns
                           [ReplyTenantInfo
                              {| info_id := tenant_id;
                                 info_name := name tenant;
                                 info_admin := admin_user_id tenant;
                                 info_description :=
                                   or_na (description tenant);
                                 info_connected := has_token;
                                 info_loaded :=
                                   bool_decide (is_Some in_cache);
                                 info_created := created;
                                 info_active := active tenant;
                                 info_counts :=
                                   (λ cache, (size (ce_domains cache),
                                              size (ce_tunnels cache)))
                                   <$> in_cache |}], s1)
                    end
                end
        end
  end.

End Handlers.

(* ===================================================================== *)
(** ** Rendering of integers *)

Lemma pretty_N_go_nonempty (x : N) (acc : string) :
  acc ≠ ""%string → pretty_N_go x acc ≠ ""%string.
Proof.
  revert acc. induction (N.lt_wf_0 x) as [x _ IH]; intros acc Hacc.
  destruct (decide (x = 0)%N) as [->|Hx].
  - by rewrite pretty_N_go_0.
  - rewrite pretty_N_go_step by lia.
    apply IH; [apply N.div_lt; lia | done].
Qed.

Lemma pretty_N_nonempty (x : N) : pretty x ≠ ""%string.
Proof.
  unfold pretty, pretty_N. case_decide; [done|].
  rewrite pretty_N_go_step by lia. by apply pretty_N_go_nonempty.
Qed.

Lemma py_str_nonempty (n : Z) : py_str n ≠ ""%string.
Proof.
  unfold py_str, pretty, pretty_Z. destruct n as [|p|p]; [done| |done].
  apply (pretty_N_nonempty (Npos p)).
Qed.

Lemma py_str_inj (a b : Z) : py_str a = py_str b → a = b.
Proof. unfold py_str. apply (inj pretty). Qed.

Lemma truthy_str_py_str (n : Z) : truthy_str (Some (py_str n)) = true.
Proof.
  simpl. destruct (String.eqb_spec (py_str n) "") as [E|_]; [|done].
  by destruct (py_str_nonempty n).
Qed.

Lemma truthy_str_Some (a : string) : a ≠ ""%string → truthy_str (Some a) = true.
Proof. intros Ha. simpl. by destruct (String.eqb_spec a ""). Qed.

(* ===================================================================== *)
(** ** Frame lemmas: what each operation leaves alone *)

Section Frames.
Context (utcnow : Z) (cf : Gateway).

Lemma is_super_admin_frame (u : Z) (s : State) :
  let s' := (is_super_admin utcnow u s).2 in
  SessionLocal s' = SessionLocal s ∧ tenants s' = tenants s ∧
  tenants_cache s' = tenants_cache s ∧ gateway_calls s' = gateway_calls s.
Proof.
  unfold is_super_admin, set_config.
  destruct (truthy_str (super_admin_id s)); simpl; [done|].
  destruct (SessionLocal s) eqn:E; simpl; [|by rewrite E].
  destruct (bot_config s !! _); simpl; by rewrite ?E.
Qed.

Lemma is_tenant_admin_frame (u : Z) (t : option Z) (s s' : State) :
  SessionLocal s' = SessionLocal s → tenants s' = tenants s →
  is_tenant_admin u t s' = is_tenant_admin u t s.
Proof.
  intros H1 H2.
  unfold is_tenant_admin, select_admin_user_id, count_tenants_of.
  by rewrite H1, H2.
Qed.

Lemma is_super_admin_settled (a : string) (u : Z) (s : State) :
  settled a s →
  is_super_admin utcnow u s = (bool_decide (py_str u = a), s).
Proof.
  intros (Hm & Ha & _ & _). unfold is_super_admin.
  rewrite Hm, truthy_str_Some by done. simpl. f_equal.
  unfold str_eq. apply bool_decide_ext. naive_solver.
Qed.

Lemma refresh_frame (t : Z) (s : State) :
  let s' := (refresh_tenant_domains cf t s).2 in
  super_admin_id s' = super_admin_id s ∧ SessionLocal s' = SessionLocal s ∧
  bot_config s' = bot_config s ∧ tenants s' = tenants s.
Proof.
  unfold refresh_tenant_domains.
  destruct (get_tenant_by_id t s) as [tenant|]; [|done].
  destruct (zones_list cf _) as [zones|e]; [|done].
  destruct (account_id_of_zones zones) as [account_id|e]; [|done].
  destruct (fallback_account_id cf _ _) as [a calls2].
  by destruct (fetch_tunnels cf _ a) as [tunnels calls3].
Qed.


End Frames.


(* ===================================================================== *)
(** ** Authorization *)

Lemma active_true (t : Tenant) : active t = true ↔ is_active t = Some true.
Proof. unfold active. destruct (is_active t) as [[]|]; naive_solver. Qed.



Lemma is_tenant_admin_zero (caller : Z) (s : State) :
  is_tenant_admin caller (Some 0) s = is_tenant_admin caller None s.
Proof. done. Qed.


Lemma select_tenants_elem (where_ : Tenant → bool) (s : State) (i : Z)
    (t : Tenant) :
  (i, t) ∈ select_tenants where_ s ↔ tenants s !! i = Some t ∧ where_ t = true.
Proof.
  unfold select_tenants. rewrite list_elem_of_filter, elem_of_map_to_list.
  simpl. tauto.
Qed.

Lemma bootstrap_settles (utcnow u : Z) (s : State) :
  SessionLocal s = true →
  truthy_str (super_admin_id s) = false →
  bot_config s !! "super_admin_id"%string = None →
  is_super_admin utcnow u s =
    (true, set_super_admin_id (Some (py_str u))
             (set_config utcnow "super_admin_id" (py_str u) s))
  ∧ settled (py_str u) (is_super_admin utcnow u s).2.
Proof.
  intros Hc Hm Hcfg. unfold is_super_admin. rewrite Hm, Hc, Hcfg. simpl.
  split; [done|]. unfold settled, get_config, set_config. rewrite Hc. simpl.
  rewrite Hc. simpl. rewrite lookup_insert_eq. simpl.
  auto using py_str_nonempty.
Qed.







(** C6. A caller for whom [is_super_admin] answers [true] has access to every
    tenant id, given or omitted, whatever the store holds; when it answers
    [false], [has_access] answers what [is_tenant_admin] answers for the same
    arguments, before as well as after the call. *)
Theorem access_dominance
    (utcnow : Z) (s : State) (U : Z) (T : option Z) :
  ((is_super_admin utcnow U s).1 = true →
   (has_access utcnow U T s).1 = true) ∧
  ((is_super_admin utcnow U s).1 = false →
   (has_access utcnow U T s).1 = is_tenant_admin U T s ∧
   (has_access utcnow U T s).1
     = is_tenant_admin U T (has_access utcnow U T s).2).
Proof.
  pose proof (is_super_admin_frame utcnow U s) as (F1 & F2 & _ & _).
  unfold has_access.
  destruct (is_super_admin utcnow U s) as [super s1]. simpl in *.
  split; intros ->; [done|].
  assert (is_tenant_admin U T s1 = is_tenant_admin U T s) as Hf
      by by apply is_tenant_admin_frame.
  destruct T as [t|]; simpl.
  - destruct (Z.eqb_spec t 0) as [->|_]; simpl; [|by rewrite Hf].
    rewrite is_tenant_admin_zero in Hf. by rewrite <- Hf.
  - by rewrite Hf.
Qed.

Lemma access_dominance_witness :
  (has_access 1000 42 (Some 8) connected).1 = true ∧
  (has_access 1000 43 (Some 8) (is_super_admin 1000 42 connected).2).1
    = is_tenant_admin 43 (Some 8) (is_super_admin 1000 42 connected).2.
Proof.
  split.
  - apply (access_dominance 1000 connected 42 (Some 8)). reflexivity.
  - apply (access_dominance 1000 (is_super_admin 1000 42 connected).2 43
             (Some 8)). reflexivity.
Defined.






(* ===================================================================== *)
(** ** The two loops as maps of lists *)

Lemma hasattr_id_get (v : PyVal) : hasattr_id v = true ↔ is_Some (get_id v).
Proof.
  destruct v as [| | | |[|i] n a r it st]; simpl;
    split; (done || by intros [? [=]] || eauto).
Qed.

Lemma hasattr_name_get (v : PyVal) :
  hasattr_name v = true ↔ is_Some (get_name v).
Proof.
  destruct v as [| | | |i [|n] a r it st]; simpl;
    split; (done || by intros [? [=]] || eauto).
Qed.

Lemma index_zone_spec (acc : gmap Key PyVal * gmap Key PyVal) (zone : PyVal) :
  index_zone acc zone =
    match get_id zone, get_name zone with
    | Some i, Some n => (<[i := zone]> acc.1, <[n := zone]> acc.2)
    | _, _ => acc
    end.
Proof.
  unfold index_zone.
  destruct (hasattr_id zone) eqn:Hi, (hasattr_name zone) eqn:Hn; simpl;
    try done.
  - destruct (get_id zone); [|done].
    destruct (get_name zone) eqn:E; [|done].
    assert (hasattr_name zone = true) by (apply hasattr_name_get; eauto).
    congruence.
  - destruct (get_id zone) eqn:E; [|done].
    assert (hasattr_id zone = true) by (apply hasattr_id_get; eauto).
    congruence.
  - destruct (get_id zone) eqn:E; [|done].
    assert (hasattr_id zone = true) by (apply hasattr_id_get; eauto).
    congruence.
Qed.

Lemma index_zones_spec (l : list PyVal) :
  index_zones l =
    (list_to_map (reverse (by_id <$> indexed_zones l)),
     list_to_map (reverse (by_name <$> indexed_zones l))).
Proof.
  unfold index_zones, indexed_zones.
  induction l as [|z l IH] using rev_ind; [done|].
  rewrite foldl_snoc, IH, index_zone_spec, omap_app.
  rewrite !fmap_app, !reverse_app. simpl.
  destruct (get_id z) as [i|]; simpl; [|done].
  by destruct (get_name z) as [n|].
Qed.

Lemma index_tunnels_spec (l : list PyVal) :
  index_tunnels l = list_to_map (reverse (indexed_tunnels l)).
Proof.
  unfold index_tunnels, indexed_tunnels.
  induction l as [|t l IH] using rev_ind; [done|].
  rewrite foldl_snoc, IH, omap_app, reverse_app. unfold index_tunnel. simpl.
  destruct (get_id t) as [i|] eqn:E; simpl.
  - by assert (hasattr_id t = true) as -> by (apply hasattr_id_get; eauto).
  - by destruct (hasattr_id t).
Qed.

Lemma indexed_zones_elem (l : list PyVal) (i n : Key) (z : PyVal) :
  (i, n, z) ∈ indexed_zones l ↔
  z ∈ l ∧ get_id z = Some i ∧ get_name z = Some n.
Proof.
  unfold indexed_zones. rewrite list_elem_of_omap. split.
  - intros (z' & Hin & Hz). destruct (get_id z') eqn:E1; [|done].
    destruct (get_name z') eqn:E2; [|done]. by simplify_eq.
  - intros (Hin & E1 & E2). exists z. by rewrite E1, E2.
Qed.

Lemma indexed_tunnels_elem (l : list PyVal) (i : Key) (t : PyVal) :
  (i, t) ∈ indexed_tunnels l ↔ t ∈ l ∧ get_id t = Some i.
Proof.
  unfold indexed_tunnels. rewrite list_elem_of_omap. split.
  - intros (t' & Hin & Ht). destruct (get_id t') eqn:E; by simplify_eq/=.
  - intros (Hin & E). exists t. by rewrite E.
Qed.

(** What the index by id holds comes from the list and has both attributes;
    and every element with both attributes has its id in the index. *)
Lemma zones_dict_sound (l : list PyVal) (k : Key) (z : PyVal) :
  (index_zones l).1 !! k = Some z →
  z ∈ l ∧ get_id z = Some k ∧ is_Some (get_name z).
Proof.
  rewrite index_zones_spec. simpl. intros H.
  apply elem_of_list_to_map_2, elem_of_reverse, list_elem_of_fmap in H
    as ([[i n] z'] & [= -> ->] & Hin).
  apply indexed_zones_elem in Hin as (? & ? & ?). eauto.
Qed.

Lemma domains_dict_sound (l : list PyVal) (k : Key) (z : PyVal) :
  (index_zones l).2 !! k = Some z →
  z ∈ l ∧ get_name z = Some k ∧ is_Some (get_id z).
Proof.
  rewrite index_zones_spec. simpl. intros H.
  apply elem_of_list_to_map_2, elem_of_reverse, list_elem_of_fmap in H
    as ([[i n] z'] & [= -> ->] & Hin).
  apply indexed_zones_elem in Hin as (? & ? & ?). eauto.
Qed.

Lemma index_zones_complete (l : list PyVal) (i n : Key) (z : PyVal) :
  z ∈ l → get_id z = Some i → get_name z = Some n →
  is_Some ((index_zones l).1 !! i) ∧ is_Some ((index_zones l).2 !! n).
Proof.
  intros Hin Hi Hn.
  assert ((i, n, z) ∈ indexed_zones l) as He by by apply indexed_zones_elem.
  rewrite index_zones_spec. simpl.
  split; apply not_eq_None_Some; intros Hnone;
    apply not_elem_of_list_to_map in Hnone; apply Hnone;
    rewrite <- fmap_reverse, <- list_fmap_compose;
    apply list_elem_of_fmap; exists (i, n, z);
    (split; [done | by apply elem_of_reverse]).
Qed.

Lemma tunnels_dict_sound (l : list PyVal) (k : Key) (t : PyVal) :
  index_tunnels l !! k = Some t → t ∈ l ∧ get_id t = Some k.
Proof.
  rewrite index_tunnels_spec. intros H.
  apply elem_of_list_to_map_2 in H. rewrite elem_of_reverse in H.
  by apply indexed_tunnels_elem.
Qed.

(** With pairwise distinct keys, each index holds exactly the indexed
    elements, one entry each. *)
Lemma zones_dict_exact (l : list PyVal) (k : Key) (z : PyVal) :
  NoDup (by_id <$> indexed_zones l).*1 →
  ((index_zones l).1 !! k = Some z ↔
   z ∈ l ∧ get_id z = Some k ∧ is_Some (get_name z)).
Proof.
  intros Hnd. split; [apply zones_dict_sound|].
  intros (Hin & Hi & [n Hn]). rewrite index_zones_spec. simpl.
  apply elem_of_list_to_map.
  - by rewrite <- fmap_reverse, reverse_Permutation.
  - apply elem_of_reverse, list_elem_of_fmap. exists (k, n, z).
    split; [done|]. by apply indexed_zones_elem.
Qed.

Lemma domains_dict_exact (l : list PyVal) (k : Key) (z : PyVal) :
  NoDup (by_name <$> indexed_zones l).*1 →
  ((index_zones l).2 !! k = Some z ↔
   z ∈ l ∧ get_name z = Some k ∧ is_Some (get_id z)).
Proof.
  intros Hnd. split; [apply domains_dict_sound|].
  intros (Hin & Hn & [i Hi]). rewrite index_zones_spec. simpl.
  apply elem_of_list_to_map.
  - by rewrite <- fmap_reverse, reverse_Permutation.
  - apply elem_of_reverse, list_elem_of_fmap. exists (i, k, z).
    split; [done|]. by apply indexed_zones_elem.
Qed.

Lemma index_zones_size (l : list PyVal) :
  distinct_keys l →
  size (index_zones l).1 = length (indexed_zones l) ∧
  size (index_zones l).2 = length (indexed_zones l).
Proof.
  intros [Hi Hn]. rewrite index_zones_spec. simpl.
  rewrite !map_size_list_to_map, !length_reverse, !length_fmap; [done|..];
    by rewrite <- fmap_reverse, reverse_Permutation.
Qed.

(* ===================================================================== *)
(** ** Cache refresh *)

(** A refresh of a tenant that resolves and that does not raise commits the
    entry built from the answers of this very call. *)
Lemma refresh_success (cf : Gateway) (T : Z) (s : State) (tenant : Tenant) :
  get_tenant_by_id T s = Some tenant →
  (refresh_tenant_domains cf T s).1 = Returns tt →
  ∃ zones a0,
    zones_list cf (cloudflare_token tenant) = Returns zones ∧
    account_id_of_zones zones = Returns a0 ∧
    let account_id := (fallback_account_id cf (cloudflare_token tenant) a0).1 in
    let tunnels := (fetch_tunnels cf (cloudflare_token tenant) account_id).1 in
    tenants_cache (refresh_tenant_domains cf T s).2 =
      <[T := build_entry T tenant zones tunnels account_id]> (tenants_cache s).
Proof.
  intros Ht. unfold refresh_tenant_domains. rewrite Ht.
  destruct (zones_list cf _) as [zones|e]; [|done].
  destruct (account_id_of_zones zones) as [a0|e] eqn:Ha0; [|done].
  intros _. exists zones, a0. split; [done|]. split; [done|]. simpl.
  destruct (fallback_account_id cf _ a0) as [a calls2]. simpl.
  by destruct (fetch_tunnels cf _ a) as [tunnels calls3].
Qed.

Lemma build_entry_indices (T : Z) (tenant : Tenant) (zones tunnels : PyVal)
    (account_id : Key) :
  let e := build_entry T tenant zones tunnels account_id in
  ce_zones e = (index_zones (as_list zones)).1 ∧
  ce_domains e = (index_zones (as_list zones)).2 ∧
  ce_tunnels e = index_tunnels (as_list tunnels) ∧
  ce_account_id e = account_id ∧ ce_tenant e = (T, tenant).
Proof. unfold build_entry. by destruct (index_zones (as_list zones)). Qed.

(** C3. When the tenant resolves and the zone listing raises, the refresh
    raises that same failure and the cache is what it was before the call. *)
Theorem refresh_hard_failure_keeps_cache
    (cf : Gateway) (s : State) (T : Z) (tenant : Tenant) (e : Exn) :
  get_tenant_by_id T s = Some tenant →
  zones_list cf (cloudflare_token tenant) = Raises e →
  (refresh_tenant_domains cf T s).1 = Raises e ∧
  tenants_cache (refresh_tenant_domains cf T s).2 = tenants_cache s.
Proof.
  intros Ht Hz. unfold refresh_tenant_domains. by rewrite Ht, Hz.
Qed.

Lemma refresh_hard_failure_keeps_cache_witness :
  (refresh_tenant_domains cf_down 7 connected).1
    = Raises (UpstreamError "401") ∧
  tenants_cache (refresh_tenant_domains cf_down 7 connected).2
    = tenants_cache connected.
Proof.
  apply (refresh_hard_failure_keeps_cache cf_down connected 7 acme);
    reflexivity.
Defined.

(** C4. When the zone listing succeeds, an account id is resolved and the
    tunnel listing raises, the refresh returns normally and commits an entry
    for the tenant whose tunnels are the empty mapping. *)
Theorem tunnel_failure_is_absorbed
    (cf : Gateway) (s : State) (T : Z) (tenant : Tenant) (zones : PyVal)
    (a0 account_id : Key) (e : Exn) :
  get_tenant_by_id T s = Some tenant →
  zones_list cf (cloudflare_token tenant) = Returns zones →
  account_id_of_zones zones = Returns a0 →
  (fallback_account_id cf (cloudflare_token tenant) a0).1 = account_id →
  truthy_str account_id = true →
  tunnels_list cf (cloudflare_token tenant) account_id = Raises e →
  (refresh_tenant_domains cf T s).1 = Returns tt ∧
  ∃ entry,
    tenants_cache (refresh_tenant_domains cf T s).2 !! T = Some entry ∧
    ce_tunnels entry = ∅ ∧ ce_account_id entry = account_id.
Proof.
  intros Ht Hz Ha0 Ha Htr He. unfold refresh_tenant_domains.
  rewrite Ht, Hz, Ha0.
  destruct (fallback_account_id cf _ a0) as [a calls2]. simpl in Ha. subst a.
  unfold fetch_tunnels. rewrite Htr, He. simpl. split; [done|].
  eexists. rewrite lookup_insert_eq. split; [done|].
  by destruct (build_entry_indices T tenant zones (PyList []) account_id)
    as (_ & _ & -> & -> & _).
Qed.

Lemma tunnel_failure_is_absorbed_witness :
  let cf := cf_no_tunnels [zone_obj "z1ize" "acme.com" "active"] in
  (refresh_tenant_domains cf 7 connected).1 = Returns tt ∧
  ∃ entry,
    tenants_cache (refresh_tenant_domains cf 7 connected).2 !! 7
      = Some entry ∧
    ce_tunnels entry = ∅ ∧ ce_account_id entry = Some "acc1"%string.
Proof.
  apply (tunnel_failure_is_absorbed
           (cf_no_tunnels [zone_obj "z1ize" "acme.com" "active"])
           connected 7 acme
           (page [zone_obj "z1ize" "acme.com" "active"])
           (Some "acc1"%string) (Some "acc1"%string)
           (UpstreamError "tunnels not enabled"));
    reflexivity.
Defined.




(** C5 (as amended). After a refresh of a resolved tenant returns, the entry
    of that tenant is a new one, the same whatever the cache held before, and
    its two zone indices come from the one zone listing of this call: every
    id of [zones] belongs to a listed zone whose name is a key of [domains],
    and conversely.  The two indices have the same number of entries when the
    ids, and the names, of the listed zones are pairwise distinct. *)
Theorem refresh_entry_is_one_snapshot
    (cf : Gateway) (s : State) (T : Z) (tenant : Tenant) :
  get_tenant_by_id T s = Some tenant →
  (refresh_tenant_domains cf T s).1 = Returns tt →
  ∃ zones entry,
    zones_list cf (cloudflare_token tenant) = Returns zones ∧
    tenants_cache (refresh_tenant_domains cf T s).2
      = <[T := entry]> (tenants_cache s) ∧
    (∀ s', get_tenant_by_id T s' = Some tenant →
           tenants_cache (refresh_tenant_domains cf T s').2 !! T = Some entry) ∧
    (∀ i z, ce_zones entry !! i = Some z →
            z ∈ as_list zones ∧ get_id z = Some i ∧
            ∃ n, get_name z = Some n ∧ is_Some (ce_domains entry !! n)) ∧
    (∀ n z, ce_domains entry !! n = Some z →
            z ∈ as_list zones ∧ get_name z = Some n ∧
            ∃ i, get_id z = Some i ∧ is_Some (ce_zones entry !! i)) ∧
    (distinct_keys (as_list zones) →
     size (ce_zones entry) = size (ce_domains entry)).
Proof.
  intros Ht Hok.
  destruct (refresh_success cf T s tenant Ht Hok)
    as (zones & a0 & Hz & Ha0 & Hcache). simpl in Hcache.
  set (account_id := (fallback_account_id cf (cloudflare_token tenant) a0).1)
    in *.
  set (tunnels := (fetch_tunnels cf (cloudflare_token tenant) account_id).1)
    in *.
  exists zones, (build_entry T tenant zones tunnels account_id).
  destruct (build_entry_indices T tenant zones tunnels account_id)
    as (Ez & Ed & _).
  split; [done|]. split; [done|]. split; [|split; [|split]].
  - intros s' Ht'.
    assert ((refresh_tenant_domains cf T s').1 = Returns tt) as Hok'.
    { unfold refresh_tenant_domains. rewrite Ht', Hz, Ha0.
      destruct (fallback_account_id cf _ a0) as [a calls2].
      by destruct (fetch_tunnels cf _ a). }
    destruct (refresh_success cf T s' tenant Ht' Hok')
      as (zones' & a0' & Hz' & Ha0' & Hcache').
    rewrite Hz in Hz'. injection Hz' as <-.
    rewrite Ha0 in Ha0'. injection Ha0' as <-.
    simpl in Hcache'. rewrite Hcache'. apply lookup_insert_eq.
  - intros i z. rewrite Ez, Ed. intros H.
    apply zones_dict_sound in H as (Hin & Hi & [n Hn]).
    split; [done|]. split; [done|]. exists n. split; [done|].
    by apply (index_zones_complete _ i n z).
  - intros n z. rewrite Ez, Ed. intros H.
    apply domains_dict_sound in H as (Hin & Hn & [i Hi]).
    split; [done|]. split; [done|]. exists i. split; [done|].
    by apply (index_zones_complete _ i n z).
  - intros Hd. rewrite Ez, Ed.
    destruct (index_zones_size _ Hd) as [-> ->]. done.
Qed.

Lemma refresh_entry_is_one_snapshot_witness :
  let cf := cf_with [zone_obj "z1ize" "acme.com" "active"]
                    [tunnel_obj "t1" "office"] in
  ∃ zones entry,
    zones_list cf (cloudflare_token acme) = Returns zones ∧
    tenants_cache (refresh_tenant_domains cf 7 connected).2
      = <[7 := entry]> (tenants_cache connected) ∧
    (∀ s', get_tenant_by_id 7 s' = Some acme →
           tenants_cache (refresh_tenant_domains cf 7 s').2 !! 7 = Some entry) ∧
    (∀ i z, ce_zones entry !! i = Some z →
            z ∈ as_list zones ∧ get_id z = Some i ∧
            ∃ n, get_name z = Some n ∧ is_Some (ce_domains entry !! n)) ∧
    (∀ n z, ce_domains entry !! n = Some z →
            z ∈ as_list zones ∧ get_name z = Some n ∧
            ∃ i, get_id z = Some i ∧ is_Some (ce_zones entry !! i)) ∧
    (distinct_keys (as_list zones) →
     size (ce_zones entry) = size (ce_domains entry)).
Proof.
  apply (refresh_entry_is_one_snapshot
           (cf_with [zone_obj "z1ize" "acme.com" "active"]
                    [tunnel_obj "t1" "office"]) connected 7 acme);
    reflexivity.
Defined.

(** C5, as stated, fails when two listed zones share a name: the refresh
    returns, yet [zones] has two entries and [domains] one. *)
Lemma same_name_zones_unequal_indices :
  let cf := cf_with [zone_obj "z1" "acme.com" "active";
                     zone_obj "z2" "acme.com" "pending"] [] in
  let r := refresh_tenant_domains cf 7 connected in
  r.1 = Returns tt ∧
  ∃ entry, tenants_cache r.2 !! 7 = Some entry ∧
           size (ce_zones entry) = 2%nat ∧ size (ce_domains entry) = 1%nat.
Proof.
  split; [reflexivity|]. eexists. split; [reflexivity|]. by vm_compute.
Qed.

(** C10 (as amended). The entry a refresh commits holds, in [zones] and in
    [domains], only listed elements that have both an [id] and a [name]; an
    element lacking either is in neither index; [tunnels] holds only elements
    that have an [id].  The two zone indices hold the same objects when the
    ids, and the names, of the listed zones are pairwise distinct. *)
Theorem committed_entry_is_well_shaped
    (cf : Gateway) (s : State) (T : Z) (tenant : Tenant) :
  get_tenant_by_id T s = Some tenant →
  (refresh_tenant_domains cf T s).1 = Returns tt →
  ∃ zones entry,
    zones_list cf (cloudflare_token tenant) = Returns zones ∧
    tenants_cache (refresh_tenant_domains cf T s).2 !! T = Some entry ∧
    (∀ z, held (ce_zones entry) z ∨ held (ce_domains entry) z →
          z ∈ as_list zones ∧ hasattr_id z = true ∧ hasattr_name z = true) ∧
    (∀ z, hasattr_id z = false ∨ hasattr_name z = false →
          ¬ held (ce_zones entry) z ∧ ¬ held (ce_domains entry) z) ∧
    (∀ t, held (ce_tunnels entry) t → hasattr_id t = true) ∧
    (distinct_keys (as_list zones) →
     ∀ z, held (ce_zones entry) z ↔ held (ce_domains entry) z).
Proof.
  intros Ht Hok.
  destruct (refresh_success cf T s tenant Ht Hok)
    as (zones & a0 & Hz & Ha0 & Hcache). simpl in Hcache.
  set (account_id := (fallback_account_id cf (cloudflare_token tenant) a0).1)
    in *.
  set (tunnels := (fetch_tunnels cf (cloudflare_token tenant) account_id).1)
    in *.
  exists zones, (build_entry T tenant zones tunnels account_id).
  destruct (build_entry_indices T tenant zones tunnels account_id)
    as (Ez & Ed & Et & _).
  rewrite Ez, Ed, Et.
  assert (∀ z, held (index_zones (as_list zones)).1 z
               ∨ held (index_zones (as_list zones)).2 z →
               z ∈ as_list zones ∧ hasattr_id z = true
               ∧ hasattr_name z = true) as Hshape.
  { intros z [[k H]|[k H]].
    - apply zones_dict_sound in H as (Hin & Hi & Hn).
      rewrite hasattr_id_get, hasattr_name_get, Hi. eauto.
    - apply domains_dict_sound in H as (Hin & Hn & Hi).
      rewrite hasattr_id_get, hasattr_name_get, Hn. eauto. }
  split; [done|]. split; [by rewrite Hcache, lookup_insert_eq|].
  split; [done|]. split; [|split].
  - intros z Hlack.
    split; intros Hheld;
      [destruct (Hshape z (or_introl Hheld)) as (_ & Hi & Hn)
      |destruct (Hshape z (or_intror Hheld)) as (_ & Hi & Hn)];
      destruct Hlack; congruence.
  - intros t [k H]. apply tunnels_dict_sound in H as [_ Hi].
    rewrite hasattr_id_get, Hi. eauto.
  - intros [Hdi Hdn] z. split; intros [k H].
    + apply zones_dict_sound in H as (Hin & Hi & [n Hn]).
      exists n. apply domains_dict_exact; eauto.
    + apply domains_dict_sound in H as (Hin & Hn & [i Hi]).
      exists i. apply zones_dict_exact; eauto.
Qed.

Lemma committed_entry_is_well_shaped_witness :
  let cf := cf_with [zone_obj "z1ize" "acme.com" "active"; PyStr "stray"]
                    [tunnel_obj "t1" "office"] in
  ∃ zones entry,
    zones_list cf (cloudflare_token acme) = Returns zones ∧
    tenants_cache (refresh_tenant_domains cf 7 connected).2 !! 7
      = Some entry ∧
    (∀ z, held (ce_zones entry) z ∨ held (ce_domains entry) z →
          z ∈ as_list zones ∧ hasattr_id z = true ∧ hasattr_name z = true) ∧
    (∀ z, hasattr_id z = false ∨ hasattr_name z = false →
          ¬ held (ce_zones entry) z ∧ ¬ held (ce_domains entry) z) ∧
    (∀ t, held (ce_tunnels entry) t → hasattr_id t = true) ∧
    (distinct_keys (as_list zones) →
     ∀ z, held (ce_zones entry) z ↔ held (ce_domains entry) z).
Proof.
  apply (committed_entry_is_well_shaped
           (cf_with [zone_obj "z1ize" "acme.com" "active"; PyStr "stray"]
                    [tunnel_obj "t1" "office"]) connected 7 acme);
    reflexivity.
Defined.

(** C10, as stated, fails when two listed zones share a name: the first of
    them is held by [zones] and not by [domains], so the two indices do not
    hold the same objects. *)
Lemma same_name_zones_different_objects :
  let first := zone_obj "z1" "example.org" "active" in
  let second := zone_obj "z2" "example.org" "moved" in
  let r := refresh_tenant_domains (cf_with [first; second] []) 8 connected in
  r.1 = Returns tt ∧
  ∃ entry, tenants_cache r.2 !! 8 = Some entry ∧
           held (ce_zones entry) first ∧ ¬ held (ce_domains entry) first.
Proof.
  split; [reflexivity|].
  exists (build_entry 8 globex
            (page [zone_obj "z1" "example.org" "active";
                   zone_obj "z2" "example.org" "moved"])
            (page []) (Some "acc1"%string)).
  split; [reflexivity|]. split.
  - exists (Some "z1"%string). reflexivity.
  - intros [k H].
    assert (ce_domains
              (build_entry 8 globex
                 (page [zone_obj "z1" "example.org" "active";
                        zone_obj "z2" "example.org" "moved"])
                 (page []) (Some "acc1"%string))
            = {[ Some "example.org"%string
                 := zone_obj "z2" "example.org" "moved" ]}) as E
        by (vm_compute; reflexivity).
    rewrite E in H.
    apply lookup_singleton_Some in H as [_ H]. discriminate H.
Qed.

(* ===================================================================== *)
(** ** Configuration store and super admin: further properties *)

(** After [is_super_admin] has answered [true] for [u], the super admin held
    in memory is [str(u)]. *)
Lemma is_super_admin_true (utcnow u : Z) (s : State) :
  (is_super_admin utcnow u s).1 = true →
  super_admin_id (is_super_admin utcnow u s).2 = Some (py_str u).
Proof.
  unfold is_super_admin, str_eq.
  destruct (truthy_str (super_admin_id s)); simpl.
  - intros H. by apply bool_decide_eq_true in H.
  - destruct (SessionLocal s); simpl; [|done].
    destruct (bot_config s !! _) as [row|]; simpl; [|done].
    intros H. by apply bool_decide_eq_true in H.
Qed.

(** X1. With a session, [get_config] reads back what [set_config] wrote for
    the key, a later write for the same key replaces it, and other keys are
    left as they were. *)
Theorem config_write_then_read
    (utcnow later : Z) (s : State) (key other v v' : string) :
  SessionLocal s = true →
  get_config key (set_config utcnow key v s) = Some v ∧
  get_config key (set_config later key v' (set_config utcnow key v s))
    = Some v' ∧
  (other ≠ key →
   get_config other (set_config utcnow key v s) = get_config other s).
Proof.
  intros Hc. unfold get_config, set_config. rewrite Hc. simpl.
  rewrite Hc. simpl. rewrite Hc. simpl.
  rewrite !lookup_insert_eq. split; [done|]. split; [done|].
  intros Hne. by rewrite lookup_insert_ne.
Qed.

Lemma config_write_then_read_witness :
  get_config "locale" (set_config 1000 "locale" "fa" connected) = Some "fa"%string ∧
  get_config "locale"
    (set_config 2000 "locale" "en" (set_config 1000 "locale" "fa" connected))
    = Some "en"%string ∧
  ("super_admin_id"%string ≠ "locale"%string →
   get_config "super_admin_id" (set_config 1000 "locale" "fa" connected)
     = get_config "super_admin_id" connected).
Proof.
  apply (config_write_then_read 1000 2000 connected "locale" "super_admin_id"
           "fa" "en"). reflexivity.
Defined.

(** X2. In every state, two callers who are both told [true] by
    [is_super_admin], one call after the other, are the same user. *)
Theorem at_most_one_super_admin
    (utcnow later : Z) (s : State) (u1 u2 : Z) :
  (is_super_admin utcnow u1 s).1 = true →
  (is_super_admin later u2 (is_super_admin utcnow u1 s).2).1 = true →
  u1 = u2.
Proof.
  intros H1 H2. apply is_super_admin_true in H1.
  revert H2. unfold is_super_admin at 1.
  rewrite H1, truthy_str_py_str. simpl. unfold str_eq.
  intros H. apply bool_decide_eq_true in H. injection H as H.
  symmetry. by apply py_str_inj.
Qed.

Lemma at_most_one_super_admin_witness : 42 = 42.
Proof.
  apply (at_most_one_super_admin 1000 2000 connected 42 42); reflexivity.
Defined.

Lemma is_super_admin_again (utcnow later : Z) (s : State) (u : Z) :
  is_super_admin later u (is_super_admin utcnow u s).2
  = ((is_super_admin utcnow u s).1, (is_super_admin utcnow u s).2).
Proof.
  destruct (truthy_str (super_admin_id s)) eqn:Hm.
  - assert (is_super_admin utcnow u s
            = (str_eq (Some (py_str u)) (super_admin_id s), s)) as ->
        by (unfold is_super_admin; by rewrite Hm).
    simpl. unfold is_super_admin. by rewrite Hm.
  - destruct (SessionLocal s) eqn:Hc.
    + destruct (bot_config s !! "super_admin_id"%string) as [row|] eqn:Hr.
      * assert (is_super_admin utcnow u s
                = (str_eq (Some (py_str u)) (value row),
                   set_super_admin_id (value row) s)) as ->
            by (unfold is_super_admin; by rewrite Hm, Hc, Hr).
        simpl. unfold is_super_admin. simpl.
        destruct (truthy_str (value row)); simpl; [done|]. by rewrite Hc, Hr.
      * destruct (bootstrap_settles utcnow u s Hc Hm Hr) as [Heq Hset].
        rewrite (is_super_admin_settled later _ u _ Hset). rewrite Heq. simpl.
        f_equal. by apply bool_decide_eq_true.
    + assert (is_super_admin utcnow u s = (false, s)) as ->
          by (unfold is_super_admin; by rewrite Hm, Hc).
      simpl. unfold is_super_admin. by rewrite Hm, Hc.
Qed.

(** X3. Asking again gives the same answer: a second [is_super_admin] call
    for the same user, right after the first, returns what the first did and
    changes nothing more. *)
Theorem is_super_admin_is_stable (utcnow later : Z) (s : State) (u : Z) :
  is_super_admin later u (is_super_admin utcnow u s).2
  = ((is_super_admin utcnow u s).1, (is_super_admin utcnow u s).2).
Proof. apply is_super_admin_again. Qed.

Lemma is_super_admin_config (utcnow : Z) (s : State) (u : Z) :
  (∀ key, key ≠ "super_admin_id"%string →
          bot_config (is_super_admin utcnow u s).2 !! key
            = bot_config s !! key) ∧
  (∀ row, bot_config s !! "super_admin_id"%string = Some row →
          bot_config (is_super_admin utcnow u s).2 = bot_config s).
Proof.
  unfold is_super_admin, set_config.
  destruct (truthy_str (super_admin_id s)); simpl; [done|].
  destruct (SessionLocal s) eqn:Hc; simpl; [|done].
  destruct (bot_config s !! "super_admin_id"%string) as [row|] eqn:Hr; simpl;
    [done|].
  split; [|done].
  intros key Hkey. by rewrite lookup_insert_ne.
Qed.

(** X4. [is_super_admin] never rewrites configuration that exists: every
    other key keeps its row, and a [super_admin_id] row that is already
    there is left exactly as it is. *)
Theorem is_super_admin_keeps_existing_config (utcnow : Z) (s : State) (u : Z) :
  (∀ key, key ≠ "super_admin_id"%string →
          bot_config (is_super_admin utcnow u s).2 !! key
            = bot_config s !! key) ∧
  (∀ row, bot_config s !! "super_admin_id"%string = Some row →
          bot_config (is_super_admin utcnow u s).2 = bot_config s).
Proof. apply is_super_admin_config. Qed.

Lemma is_super_admin_keeps_existing_config_witness :
  let s := set_config 500 "super_admin_id" "42" connected in
  bot_config (is_super_admin 1000 43 s).2 = bot_config s.
Proof.
  eapply (proj2 (is_super_admin_keeps_existing_config 1000
                   (set_config 500 "super_admin_id" "42" connected) 43)).
  reflexivity.
Defined.

(** A stored [super_admin_id] whose value is NULL or empty, with nothing in
    memory: the state in which nobody is the super admin. *)
Lemma locked_out_step (utcnow : Z) (cf : Gateway) (op : Op) (s : State) :
  (truthy_str (super_admin_id s) = false ∧ SessionLocal s = true ∧
   ∃ row, bot_config s !! "super_admin_id"%string = Some row
          ∧ truthy_str (value row) = false) →
  (truthy_str (super_admin_id (run_op utcnow cf op s)) = false ∧
   SessionLocal (run_op utcnow cf op s) = true ∧
   ∃ row, bot_config (run_op utcnow cf op s) !! "super_admin_id"%string
            = Some row ∧ truthy_str (value row) = false) ∧
  (∀ u, (is_super_admin utcnow u s).1 = false).
Proof.
  intros (Hm & Hc & row & Hr & Hv).
  assert (∀ u, is_super_admin utcnow u s
               = (false, set_super_admin_id (value row) s)) as Hsa.
  { intros u. unfold is_super_admin. rewrite Hm, Hc, Hr. simpl. f_equal.
    unfold str_eq. apply bool_decide_eq_false. intros E.
    rewrite <- E, truthy_str_py_str in Hv. done. }
  split; [|intros u; by rewrite Hsa].
  destruct op as [u|u t|u t|u|t]; simpl.
  - rewrite Hsa. simpl. eauto.
  - eauto.
  - unfold has_access. rewrite Hsa. destruct (truthy_int t); simpl; eauto.
  - unfold get_tenants. rewrite Hc. simpl. destruct u as [u|]; simpl; [|eauto].
    destruct (negb (u =? 0)); simpl; [|eauto]. rewrite Hsa. simpl. eauto.
  - destruct (refresh_frame cf t s) as (H1 & H2 & H3 & H4). simpl in *.
    rewrite H1, H2, H3. eauto.
Qed.

(** X5. A [super_admin_id] row whose value is NULL or empty locks everybody
    out: with nothing in memory, no caller is ever told [true], whatever
    operations ran in between, and no bootstrap takes place. *)
Theorem empty_config_value_locks_out
    (utcnow : Z) (s : State) (row : BotConfig) (ops : list (Z * Gateway * Op))
    (u : Z) :
  SessionLocal s = true →
  truthy_str (super_admin_id s) = false →
  bot_config s !! "super_admin_id"%string = Some row →
  truthy_str (value row) = false →
  (is_super_admin utcnow u (run_ops ops s)).1 = false ∧
  bot_config (is_super_admin utcnow u (run_ops ops s)).2
    !! "super_admin_id"%string = Some row.
Proof.
  intros Hc Hm Hr Hv.
  assert (truthy_str (super_admin_id (run_ops ops s)) = false ∧
          SessionLocal (run_ops ops s) = true ∧
          bot_config (run_ops ops s) !! "super_admin_id"%string = Some row)
    as (Hm' & Hc' & Hr').
  { clear u. revert s Hc Hm Hr.
    induction ops as [|[[now cf] op] ops IH]; intros s Hc Hm Hr; [done|].
    simpl. apply IH.
    - apply (locked_out_step now cf op s). eauto.
    - apply (locked_out_step now cf op s). eauto.
    - destruct op as [u|u t|u t|u|t]; simpl.
      + by rewrite (proj2 (is_super_admin_config now s u) row).
      + done.
      + unfold has_access.
        pose proof (proj2 (is_super_admin_config now s u) row Hr)
          as Hk.
        destruct (is_super_admin now u s) as [b s1]. simpl in *.
        destruct b; simpl; [by rewrite Hk|].
        destruct (truthy_int t); simpl; by rewrite Hk.
      + unfold get_tenants. rewrite Hc. simpl.
        destruct u as [u|]; simpl; [|done].
        destruct (negb (u =? 0)); simpl; [|done].
        pose proof (proj2 (is_super_admin_config now s u) row Hr)
          as Hk.
        destruct (is_super_admin now u s) as [b s1]. simpl in *.
        destruct b; simpl; by rewrite Hk.
      + destruct (refresh_frame cf t s) as (H1 & H2 & H3 & H4). simpl in *.
        by rewrite H3. }
  split.
  - apply (locked_out_step utcnow cf_down (OpIsSuperAdmin u)). eauto.
  - by rewrite (proj2 (is_super_admin_config utcnow _ u) row).
Qed.

Lemma empty_config_value_locks_out_witness :
  let s := set_bot_config
             {[ "super_admin_id"%string
                := {| value := None; updated_at := None |} ]} connected in
  (is_super_admin 1000 42 (run_ops [(500, cf_down, OpGetTenants (Some 43))] s)).1
    = false ∧
  bot_config
    (is_super_admin 1000 42
       (run_ops [(500, cf_down, OpGetTenants (Some 43))] s)).2
    !! "super_admin_id"%string = Some {| value := None; updated_at := None |}.
Proof.
  apply (empty_config_value_locks_out 1000
           (set_bot_config
              {[ "super_admin_id"%string
                 := {| value := None; updated_at := None |} ]} connected));
    reflexivity.
Defined.

(* ===================================================================== *)
(** ** Listing tenants: further properties *)


Lemma get_tenants_all_active (utcnow : Z) (s : State) (user_id : option Z) :
  SessionLocal s = true →
  truthy_int user_id = false
  ∨ (∃ u, user_id = Some u ∧ (is_super_admin utcnow u s).1 = true) →
  ∀ i t, (i, t) ∈ (get_tenants utcnow user_id s).1 ↔
         tenants s !! i = Some t ∧ is_active t = Some true.
Proof.
  intros Hc Hcase i t. unfold get_tenants. rewrite Hc. simpl.
  destruct user_id as [u|]; simpl.
  - destruct (negb (u =? 0)) eqn:Hz; simpl.
    + destruct Hcase as [Hf|(u' & [= <-] & Hsa)];
        [simpl in Hf; congruence|].
      pose proof (is_super_admin_frame utcnow u s) as (_ & Ft & _ & _).
      destruct (is_super_admin utcnow u s) as [b s1]. simpl in *. subst b.
      simpl. by rewrite select_tenants_elem, Ft, active_true.
    + by rewrite select_tenants_elem, active_true.
  - by rewrite select_tenants_elem, active_true.
Qed.



(** X7. [get_tenants] called with no user id, or with user id [0], asks
    nothing about the caller: it leaves the state as it is (no bootstrap) and,
    with a session, returns every active tenant. *)
Theorem get_tenants_without_user_lists_all
    (utcnow : Z) (s : State) (user_id : option Z) :
  truthy_int user_id = false →
  (get_tenants utcnow user_id s).2 = s ∧
  (SessionLocal s = true →
   ∀ i t, (i, t) ∈ (get_tenants utcnow user_id s).1 ↔
          tenants s !! i = Some t ∧ is_active t = Some true).
Proof.
  intros Hu. split.
  - unfold get_tenants. destruct (SessionLocal s); simpl; [|done].
    destruct user_id as [u|]; [|done]. by rewrite Hu.
  - intros Hc. apply get_tenants_all_active; auto.
Qed.

Lemma get_tenants_without_user_lists_all_witness :
  (get_tenants 1000 (Some 0) connected).2 = connected ∧
  (SessionLocal connected = true →
   ∀ i t, (i, t) ∈ (get_tenants 1000 (Some 0) connected).1 ↔
          tenants connected !! i = Some t ∧ is_active t = Some true).
Proof.
  apply (get_tenants_without_user_lists_all 1000 connected (Some 0)).
  reflexivity.
Defined.

(** X8. A tenant whose flag is not true is invisible to the access
    predicates and to the listing: nobody is its tenant admin, and
    [get_tenants] never returns it, for any caller. *)
Theorem inactive_tenant_is_invisible
    (utcnow : Z) (s : State) (T : Z) (t : Tenant) :
  tenants s !! T = Some t → is_active t ≠ Some true →
  (T ≠ 0 → ∀ caller, is_tenant_admin caller (Some T) s = false) ∧
  (∀ user_id t', (T, t') ∉ (get_tenants utcnow user_id s).1).
Proof.
  intros Ht Hact. split.
  - intros Hnz caller. unfold is_tenant_admin, select_admin_user_id.
    destruct (SessionLocal s); simpl; [|done].
    destruct (Z.eqb_spec T 0) as [|_]; [done|]. simpl. rewrite Ht.
    destruct (active t) eqn:Ea; [|done]. by apply active_true in Ea.
  - intros user_id t' Hin.
    assert (tenants s !! T = Some t' ∧ active t' = true) as [Ht' Ha].
    { revert Hin. unfold get_tenants.
      destruct (SessionLocal s); simpl; [|by intros ?%elem_of_nil].
      pose proof (λ u, is_super_admin_frame utcnow u s) as F.
      destruct user_id as [u|]; simpl.
      - destruct (negb (u =? 0)); simpl.
        + destruct (F u) as (_ & Ft & _ & _).
          destruct (is_super_admin utcnow u s) as [b s1]. simpl in *.
          destruct b; simpl; rewrite select_tenants_elem, Ft;
            rewrite ?andb_true_iff; tauto.
        + rewrite select_tenants_elem. tauto.
      - rewrite select_tenants_elem. tauto. }
    rewrite Ht in Ht'. injection Ht' as <-. by apply active_true in Ha.
Qed.

Lemma inactive_tenant_is_invisible_witness :
  (9 ≠ 0 → ∀ caller, is_tenant_admin caller (Some 9) connected = false) ∧
  (∀ user_id t', (9, t') ∉ (get_tenants 1000 user_id connected).1).
Proof.
  apply (inactive_tenant_is_invisible 1000 connected 9 retired);
    [reflexivity | discriminate].
Defined.



(* ===================================================================== *)
(** ** Cache refresh: further properties *)


(** What a refresh of a resolved tenant does, in one equation per ending. *)
Lemma refresh_cases (cf : Gateway) (T : Z) (s : State) (tenant : Tenant) :
  get_tenant_by_id T s = Some tenant →
  let tok := cloudflare_token tenant in
  (∃ e, zones_list cf tok = Raises e ∧
        refresh_tenant_domains cf T s
          = (Raises e, record_calls [CallZonesList tok] s)) ∨
  (∃ zones e, zones_list cf tok = Returns zones ∧
              account_id_of_zones zones = Raises e ∧
              refresh_tenant_domains cf T s
                = (Raises e, record_calls [CallZonesList tok] s)) ∨
  (∃ zones a0, zones_list cf tok = Returns zones ∧
               account_id_of_zones zones = Returns a0 ∧
               let fb := fallback_account_id cf tok a0 in
               let ft := fetch_tunnels cf tok fb.1 in
               let s3 := record_calls (fb.2 ++ ft.2)
                           (record_calls [CallZonesList tok] s) in
               refresh_tenant_domains cf T s
                 = (Returns tt,
                    set_tenants_cache
                      (<[T := build_entry T tenant zones ft.1 fb.1]>
                         (tenants_cache s3)) s3)).
Proof.
  intros Ht. simpl. unfold refresh_tenant_domains. rewrite Ht.
  destruct (zones_list cf _) as [zones|e]; [|left; eauto].
  right. destruct (account_id_of_zones zones) as [a0|e] eqn:Ha; [|left; eauto].
  right. exists zones, a0. split; [done|]. split; [done|].
  destruct (fallback_account_id cf _ a0) as [a calls2]. simpl.
  by destruct (fetch_tunnels cf _ a) as [tunnels calls3].
Qed.

Lemma refresh_other_entries (cf : Gateway) (s : State) (T T' : Z) :
  T' ≠ T →
  let s' := (refresh_tenant_domains cf T s).2 in
  tenants_cache s' !! T' = tenants_cache s !! T' ∧
  tenants s' = tenants s ∧ bot_config s' = bot_config s ∧
  super_admin_id s' = super_admin_id s ∧ SessionLocal s' = SessionLocal s.
Proof.
  intros Hne. simpl.
  destruct (refresh_frame cf T s) as (H1 & H2 & H3 & H4). simpl in *.
  split; [|done].
  destruct (get_tenant_by_id T s) as [tenant|] eqn:Ht.
  - destruct (refresh_cases cf T s tenant Ht)
      as [(e & _ & ->)|[(zones & e & _ & _ & ->)|(zones & a0 & _ & _ & ->)]];
      simpl; [done..|]. by rewrite lookup_insert_ne.
  - unfold refresh_tenant_domains. by rewrite Ht.
Qed.

(** X10. A refresh of tenant [T] touches nothing but [T]'s cache entry:
    every other entry, both tables, the super admin and the session factory
    are as before, however the call ends. *)
Theorem refresh_touches_one_entry (cf : Gateway) (s : State) (T T' : Z) :
  T' ≠ T →
  let s' := (refresh_tenant_domains cf T s).2 in
  tenants_cache s' !! T' = tenants_cache s !! T' ∧
  tenants s' = tenants s ∧ bot_config s' = bot_config s ∧
  super_admin_id s' = super_admin_id s ∧ SessionLocal s' = SessionLocal s.
Proof. apply refresh_other_entries. Qed.

Lemma refresh_touches_one_entry_witness :
  let cf := cf_with [zone_obj "z1ize" "acme.com" "active"] [] in
  let s := (refresh_tenant_domains cf 8 connected).2 in
  let s' := (refresh_tenant_domains cf 7 s).2 in
  tenants_cache s' !! 8 = tenants_cache s !! 8 ∧
  tenants s' = tenants s ∧ bot_config s' = bot_config s ∧
  super_admin_id s' = super_admin_id s ∧ SessionLocal s' = SessionLocal s.
Proof.
  apply (refresh_touches_one_entry
           (cf_with [zone_obj "z1ize" "acme.com" "active"] [])
           (refresh_tenant_domains
              (cf_with [zone_obj "z1ize" "acme.com" "active"] []) 8
              connected).2 7 8). lia.
Defined.



(** X12. The remote calls of a refresh of a resolved tenant: first the zone
    listing, then at most two more, all with the tenant's token; the account
    listing is called only when the zones gave no account id, and the tunnel
    listing is never called without an account id. *)
Theorem refresh_remote_calls
    (cf : Gateway) (s : State) (T : Z) (tenant : Tenant) :
  get_tenant_by_id T s = Some tenant →
  let tok := cloudflare_token tenant in
  ∃ rest,
    gateway_calls (refresh_tenant_domains cf T s).2
      = gateway_calls s ++ CallZonesList tok :: rest ∧
    (length rest ≤ 2)%nat ∧
    (∀ c, c ∈ rest →
          c = CallAccountsList tok
          ∨ ∃ a, c = CallTunnelsList tok a ∧ truthy_str a = true) ∧
    (CallAccountsList tok ∈ rest →
     ∃ zones a0, zones_list cf tok = Returns zones ∧
                 account_id_of_zones zones = Returns a0 ∧
                 truthy_str a0 = false).
Proof.
  intros Ht. simpl.
  destruct (refresh_cases cf T s tenant Ht)
    as [(e & _ & ->)|[(zones & e & _ & _ & ->)|(zones & a0 & Hz & Ha & ->)]];
    simpl.
  - exists []. split; [done|]. split; [simpl; lia|].
    split; [by intros ? ?%elem_of_nil | by intros ?%elem_of_nil].
  - exists []. split; [done|]. split; [simpl; lia|].
    split; [by intros ? ?%elem_of_nil | by intros ?%elem_of_nil].
  - set (tok := cloudflare_token tenant).
    exists ((fallback_account_id cf tok a0).2
            ++ (fetch_tunnels cf tok (fallback_account_id cf tok a0).1).2).
    split; [by rewrite <- app_assoc|].
    assert ((fallback_account_id cf tok a0).2 = []
            ∧ truthy_str a0 = true
            ∨ (fallback_account_id cf tok a0).2 = [CallAccountsList tok]
              ∧ truthy_str a0 = false) as Hfb.
    { unfold fallback_account_id. destruct (truthy_str a0); simpl; [auto|].
      right. destruct (accounts_list cf tok) as [accounts|]; [|done].
      by destruct (first_account_id accounts a0). }
    assert (∀ a, (fetch_tunnels cf tok a).2 = []
                 ∨ (fetch_tunnels cf tok a).2 = [CallTunnelsList tok a]
                   ∧ truthy_str a = true) as Hft.
    { intros a. unfold fetch_tunnels. destruct (truthy_str a); simpl; [|auto].
      right. by destruct (tunnels_list cf tok a). }
    destruct (Hft (fallback_account_id cf tok a0).1) as [E2|[E2 Htr]];
      destruct Hfb as [[E1 Ha0]|[E1 Ha0]]; rewrite E1, E2; simpl.
    + split; [lia|]. split; [by intros ? ?%elem_of_nil | by intros ?%elem_of_nil].
    + split; [lia|]. split.
      * intros c ->%list_elem_of_singleton. auto.
      * intros _. eauto.
    + split; [lia|]. split.
      * intros c ->%list_elem_of_singleton. eauto.
      * intros Hin%list_elem_of_singleton. done.
    + split; [lia|]. split.
      * intros c [Hc|Hc%list_elem_of_singleton]%elem_of_cons; subst c; eauto.
      * intros _. eauto.
Qed.

Lemma refresh_remote_calls_witness :
  let cf := cf_with [zone_obj "z1ize" "acme.com" "active"] [] in
  ∃ rest,
    gateway_calls (refresh_tenant_domains cf 7 connected).2
      = gateway_calls connected ++ CallZonesList "tok_abc" :: rest ∧
    (length rest ≤ 2)%nat ∧
    (∀ c, c ∈ rest →
          c = CallAccountsList "tok_abc"
          ∨ ∃ a, c = CallTunnelsList "tok_abc" a ∧ truthy_str a = true) ∧
    (CallAccountsList "tok_abc" ∈ rest →
     ∃ zones a0, zones_list cf "tok_abc" = Returns zones ∧
                 account_id_of_zones zones = Returns a0 ∧
                 truthy_str a0 = false).
Proof.
  apply (refresh_remote_calls
           (cf_with [zone_obj "z1ize" "acme.com" "active"] [])
           connected 7 acme). reflexivity.
Defined.

(** The loop keeps what is filed under a key as long as no later element is
    filed under that key. *)
Lemma foldl_index_zone_keeps (l : list PyVal)
    (acc : gmap Key PyVal * gmap Key PyVal) :
  (∀ i z, acc.1 !! i = Some z →
          (∀ z', z' ∈ l → get_id z' = Some i → get_name z' = None) →
          (foldl index_zone acc l).1 !! i = Some z) ∧
  (∀ n z, acc.2 !! n = Some z →
          (∀ z', z' ∈ l → get_name z' = Some n → get_id z' = None) →
          (foldl index_zone acc l).2 !! n = Some z).
Proof.
  revert acc. induction l as [|x l IH]; intros acc; [done|].
  simpl. rewrite index_zone_spec.
  split.
  - intros i z Hacc Hl. apply IH.
    + destruct (get_id x) as [i'|] eqn:Ei; [|done].
      destruct (get_name x) as [n'|] eqn:En; [|done]. simpl.
      destruct (decide (i' = i)) as [->|Hne]; [|by rewrite lookup_insert_ne].
      specialize (Hl x (list_elem_of_here _ _) Ei). congruence.
    + intros z' Hin. apply Hl. by right.
  - intros n z Hacc Hl. apply IH.
    + destruct (get_id x) as [i'|] eqn:Ei; [|done].
      destruct (get_name x) as [n'|] eqn:En; [|done]. simpl.
      destruct (decide (n' = n)) as [->|Hne]; [|by rewrite lookup_insert_ne].
      specialize (Hl x (list_elem_of_here _ _) En). congruence.
    + intros z' Hin. apply Hl. by right.
Qed.

Lemma index_zones_last_wins (before after : list PyVal) (z : PyVal)
    (i n : Key) :
  get_id z = Some i → get_name z = Some n →
  ((∀ z', z' ∈ after → get_id z' = Some i → get_name z' = None) →
   (index_zones (before ++ z :: after)).1 !! i = Some z) ∧
  ((∀ z', z' ∈ after → get_name z' = Some n → get_id z' = None) →
   (index_zones (before ++ z :: after)).2 !! n = Some z).
Proof.
  intros Hi Hn. unfold index_zones. rewrite foldl_app. simpl.
  rewrite index_zone_spec, Hi, Hn.
  split; intros Hl; apply foldl_index_zone_keeps; try done; simpl;
    apply lookup_insert_eq.
Qed.

(** X13. Last write wins: in the committed entry, a key of [domains] (of
    [zones]) holds the listed zone with that name (that id) after which the
    listing has no other zone filed under the same key. *)
Theorem later_zone_wins
    (cf : Gateway) (s : State) (T : Z) (tenant : Tenant) (zones : PyVal)
    (before after : list PyVal) (z : PyVal) (i n : Key) :
  get_tenant_by_id T s = Some tenant →
  (refresh_tenant_domains cf T s).1 = Returns tt →
  zones_list cf (cloudflare_token tenant) = Returns zones →
  as_list zones = before ++ z :: after →
  get_id z = Some i → get_name z = Some n →
  ∃ entry,
    tenants_cache (refresh_tenant_domains cf T s).2 !! T = Some entry ∧
    ((∀ z', z' ∈ after → get_name z' = Some n → get_id z' = None) →
     ce_domains entry !! n = Some z) ∧
    ((∀ z', z' ∈ after → get_id z' = Some i → get_name z' = None) →
     ce_zones entry !! i = Some z).
Proof.
  intros Ht Hok Hz Hl Hi Hn.
  destruct (refresh_success cf T s tenant Ht Hok)
    as (zones' & a0 & Hz' & Ha0 & Hcache).
  rewrite Hz in Hz'. injection Hz' as <-. simpl in Hcache.
  eexists. split; [by rewrite Hcache, lookup_insert_eq|].
  edestruct build_entry_indices as (Ez & Ed & _). rewrite Ez, Ed, Hl.
  destruct (index_zones_last_wins before after z i n Hi Hn) as [H1 H2].
  split; auto.
Qed.

Lemma later_zone_wins_witness :
  let first := zone_obj "z1" "example.org" "active" in
  let second := zone_obj "z2" "example.org" "moved" in
  let cf := cf_with [first; second] [] in
  ∃ entry,
    tenants_cache (refresh_tenant_domains cf 8 connected).2 !! 8 = Some entry ∧
    ((∀ z', z' ∈ [] → get_name z' = Some (Some "example.org"%string) →
            get_id z' = None) →
     ce_domains entry !! Some "example.org"%string = Some second) ∧
    ((∀ z', z' ∈ [] → get_id z' = Some (Some "z2"%string) →
            get_name z' = None) →
     ce_zones entry !! Some "z2"%string = Some second).
Proof.
  apply (later_zone_wins
           (cf_with [zone_obj "z1" "example.org" "active";
                     zone_obj "z2" "example.org" "moved"] [])
           connected 8 globex
           (page [zone_obj "z1" "example.org" "active";
                  zone_obj "z2" "example.org" "moved"])
           [zone_obj "z1" "example.org" "active"] []
           (zone_obj "z2" "example.org" "moved")
           (Some "z2"%string) (Some "example.org"%string));
    reflexivity.
Defined.

(** X14. Nothing listed is dropped: after a refresh that returns, every
    listed zone that has an [id] and a [name] has its id among the keys of
    [zones] and its name among the keys of [domains]. *)
Theorem listed_zone_is_indexed
    (cf : Gateway) (s : State) (T : Z) (tenant : Tenant) (zones z : PyVal)
    (i n : Key) :
  get_tenant_by_id T s = Some tenant →
  (refresh_tenant_domains cf T s).1 = Returns tt →
  zones_list cf (cloudflare_token tenant) = Returns zones →
  z ∈ as_list zones → get_id z = Some i → get_name z = Some n →
  ∃ entry,
    tenants_cache (refresh_tenant_domains cf T s).2 !! T = Some entry ∧
    is_Some (ce_zones entry !! i) ∧ is_Some (ce_domains entry !! n).
Proof.
  intros Ht Hok Hz Hin Hi Hn.
  destruct (refresh_success cf T s tenant Ht Hok)
    as (zones' & a0 & Hz' & Ha0 & Hcache).
  rewrite Hz in Hz'. injection Hz' as <-. simpl in Hcache.
  eexists. split; [by rewrite Hcache, lookup_insert_eq|].
  edestruct build_entry_indices as (Ez & Ed & _). rewrite Ez, Ed.
  by apply (index_zones_complete _ i n z).
Qed.

Lemma listed_zone_is_indexed_witness :
  let cf := cf_with [zone_obj "z1" "example.org" "active";
                     zone_obj "z2" "example.org" "moved"] [] in
  ∃ entry,
    tenants_cache (refresh_tenant_domains cf 8 connected).2 !! 8 = Some entry ∧
    is_Some (ce_zones entry !! Some "z1"%string) ∧
    is_Some (ce_domains entry !! Some "example.org"%string).
Proof.
  apply (listed_zone_is_indexed
           (cf_with [zone_obj "z1" "example.org" "active";
                     zone_obj "z2" "example.org" "moved"] [])
           connected 8 globex
           (page [zone_obj "z1" "example.org" "active";
                  zone_obj "z2" "example.org" "moved"])
           (zone_obj "z1" "example.org" "active")
           (Some "z1"%string) (Some "example.org"%string));
    try reflexivity.
  apply list_elem_of_here.
Defined.

(** X15. When the tunnel listing returns, the committed entry records the
    resolved account id, and [tunnels] holds listed tunnels only, each under
    its own id, with a key for the id of every listed tunnel that has one. *)
Theorem tunnels_index_matches_listing
    (cf : Gateway) (s : State) (T : Z) (tenant : Tenant)
    (zones tunnels : PyVal) (a0 account_id : Key) :
  get_tenant_by_id T s = Some tenant →
  zones_list cf (cloudflare_token tenant) = Returns zones →
  account_id_of_zones zones = Returns a0 →
  (fallback_account_id cf (cloudflare_token tenant) a0).1 = account_id →
  truthy_str account_id = true →
  tunnels_list cf (cloudflare_token tenant) account_id = Returns tunnels →
  ∃ entry,
    tenants_cache (refresh_tenant_domains cf T s).2 !! T = Some entry ∧
    ce_account_id entry = account_id ∧
    (∀ k t, ce_tunnels entry !! k = Some t →
            t ∈ as_list tunnels ∧ get_id t = Some k) ∧
    (∀ k t, t ∈ as_list tunnels → get_id t = Some k →
            is_Some (ce_tunnels entry !! k)).
Proof.
  intros Ht Hz Ha0 Ha Htr Htun.
  destruct (refresh_cases cf T s tenant Ht)
    as [(e & Hz' & _)|[(zones' & e & Hz' & Ha' & _)
                       |(zones' & a0' & Hz' & Ha' & Heq)]];
    rewrite Hz in Hz'; try done; injection Hz' as <-;
    rewrite Ha0 in Ha'; try done; injection Ha' as <-.
  simpl in Heq. rewrite Heq. simpl. rewrite Ha.
  assert ((fetch_tunnels cf (cloudflare_token tenant) account_id).1 = tunnels)
    as -> by (unfold fetch_tunnels; by rewrite Htr, Htun).
  eexists. split; [by rewrite lookup_insert_eq|].
  edestruct build_entry_indices as (_ & _ & Et & Ea & _). rewrite Et, Ea.
  split; [done|]. split.
  - intros k t. apply tunnels_dict_sound.
  - intros k t Hin Hk. rewrite index_tunnels_spec.
    apply not_eq_None_Some. intros Hnone.
    apply not_elem_of_list_to_map in Hnone. apply Hnone.
    apply list_elem_of_fmap. exists (k, t). split; [done|].
    apply elem_of_reverse. by apply indexed_tunnels_elem.
Qed.

Lemma tunnels_index_matches_listing_witness :
  let cf := cf_with [zone_obj "z1ize" "acme.com" "active"]
                    [tunnel_obj "t1" "office"] in
  ∃ entry,
    tenants_cache (refresh_tenant_domains cf 7 connected).2 !! 7 = Some entry ∧
    ce_account_id entry = Some "acc1"%string ∧
    (∀ k t, ce_tunnels entry !! k = Some t →
            t ∈ as_list (page [tunnel_obj "t1" "office"]) ∧ get_id t = Some k) ∧
    (∀ k t, t ∈ as_list (page [tunnel_obj "t1" "office"]) → get_id t = Some k →
            is_Some (ce_tunnels entry !! k)).
Proof.
  apply (tunnels_index_matches_listing
           (cf_with [zone_obj "z1ize" "acme.com" "active"]
                    [tunnel_obj "t1" "office"])
           connected 7 acme
           (page [zone_obj "z1ize" "acme.com" "active"])
           (page [tunnel_obj "t1" "office"])
           (Some "acc1"%string) (Some "acc1"%string));
    reflexivity.
Defined.

(** X16. Without an account id there are no tunnels: when neither the zones
    nor the account listing give an account id, the refresh still returns,
    never calls the tunnel listing, and commits an entry with an empty
    [tunnels] mapping and the empty account id. *)
Theorem no_account_no_tunnels
    (cf : Gateway) (s : State) (T : Z) (tenant : Tenant) (zones : PyVal)
    (a0 account_id : Key) :
  get_tenant_by_id T s = Some tenant →
  zones_list cf (cloudflare_token tenant) = Returns zones →
  account_id_of_zones zones = Returns a0 →
  (fallback_account_id cf (cloudflare_token tenant) a0).1 = account_id →
  truthy_str account_id = false →
  (refresh_tenant_domains cf T s).1 = Returns tt ∧
  (∀ tok a, CallTunnelsList tok a
            ∈ gateway_calls (refresh_tenant_domains cf T s).2 →
            CallTunnelsList tok a ∈ gateway_calls s) ∧
  ∃ entry,
    tenants_cache (refresh_tenant_domains cf T s).2 !! T = Some entry ∧
    ce_tunnels entry = ∅ ∧ ce_account_id entry = account_id.
Proof.
  intros Ht Hz Ha0 Ha Htr.
  destruct (refresh_cases cf T s tenant Ht)
    as [(e & Hz' & _)|[(zones' & e & Hz' & Ha' & _)
                       |(zones' & a0' & Hz' & Ha' & Heq)]];
    rewrite Hz in Hz'; try done; injection Hz' as <-;
    rewrite Ha0 in Ha'; try done; injection Ha' as <-.
  simpl in Heq. rewrite Heq. simpl. rewrite Ha.
  assert (fetch_tunnels cf (cloudflare_token tenant) account_id
          = (PyList [], [])) as ->
      by (unfold fetch_tunnels; by rewrite Htr).
  simpl. split; [done|]. split.
  - intros tok a. rewrite app_nil_r, !elem_of_app.
    intros [[Hin|Hin%list_elem_of_singleton]|Hin]; [done|done|].
    revert Hin. unfold fallback_account_id.
    destruct (negb (truthy_str a0)); [|by intros ?%elem_of_nil].
    destruct (accounts_list cf _) as [accounts|];
      [destruct (first_account_id accounts a0)|];
      by intros ?%list_elem_of_singleton.
  - eexists. split; [by rewrite lookup_insert_eq|].
    by edestruct build_entry_indices as (_ & _ & -> & -> & _).
Qed.

Lemma no_account_no_tunnels_witness :
  let bare := PyObj (Has (Some "z9"%string)) (Has (Some "bare.io"%string))
                    Missing Missing None "active" in
  let cf := cf_with [bare] [tunnel_obj "t1" "office"] in
  (refresh_tenant_domains cf 7 connected).1 = Returns tt ∧
  (∀ tok a, CallTunnelsList tok a
            ∈ gateway_calls (refresh_tenant_domains cf 7 connected).2 →
            CallTunnelsList tok a ∈ gateway_calls connected) ∧
  ∃ entry,
    tenants_cache (refresh_tenant_domains cf 7 connected).2 !! 7 = Some entry ∧
    ce_tunnels entry = ∅ ∧ ce_account_id entry = None.
Proof.
  apply (no_account_no_tunnels
           (cf_with [PyObj (Has (Some "z9"%string))
                       (Has (Some "bare.io"%string))
                       Missing Missing None "active"]
                    [tunnel_obj "t1" "office"])
           connected 7 acme
           (page [PyObj (Has (Some "z9"%string)) (Has (Some "bare.io"%string))
                    Missing Missing None "active"])
           None None);
    reflexivity.
Defined.

(* ===================================================================== *)
(** ** Decimal text: [str], [isdigit] and [int] *)

Lemma pretty_N_char_code (d : N) :
  (d < 10)%N → Ascii.N_of_ascii (pretty_N_char d) = (48 + d)%N.
Proof.
  intros Hd.
  assert (d = 0 ∨ d = 1 ∨ d = 2 ∨ d = 3 ∨ d = 4 ∨ d = 5 ∨ d = 6 ∨ d = 7
          ∨ d = 8 ∨ d = 9)%N as H by lia.
  repeat (destruct H as [->|H]; [reflexivity|]). by subst d.
Qed.

Lemma is_digit_pretty_N_char (d : N) :
  (d < 10)%N → is_digit (pretty_N_char d) = true.
Proof.
  intros Hd. unfold is_digit. rewrite pretty_N_char_code by done.
  apply andb_true_iff. split; apply N.leb_le; lia.
Qed.

Lemma all_digits_pretty_N_go (x : N) (acc : string) :
  all_digits (pretty_N_go x acc) = all_digits acc.
Proof.
  revert acc. induction (N.lt_wf_0 x) as [x _ IH]; intros acc.
  destruct (decide (x = 0)%N) as [->|Hx]; [by rewrite pretty_N_go_0|].
  rewrite pretty_N_go_step by lia.
  rewrite IH by (apply N.div_lt; lia). simpl.
  rewrite is_digit_pretty_N_char; [done|]. by apply N.mod_lt.
Qed.

Lemma digits_acc_pretty_N_go (x : N) :
  ∃ k : N, ∀ acc rest,
    digits_acc acc (pretty_N_go x rest) = digits_acc (acc * 10 ^ k + x)%N rest.
Proof.
  induction (N.lt_wf_0 x) as [x _ IH].
  destruct (decide (x = 0)%N) as [->|Hx].
  - exists 0%N. intros acc rest. rewrite pretty_N_go_0. f_equal. simpl. lia.
  - destruct (IH (x `div` 10)%N) as [k Hk]; [apply N.div_lt; lia|].
    exists (N.succ k). intros acc rest.
    rewrite pretty_N_go_step, Hk by lia. simpl.
    rewrite pretty_N_char_code by (by apply N.mod_lt). f_equal.
    rewrite N.pow_succ_r'.
    pose proof (N.div_mod x 10 ltac:(lia)) as Hdm.
    set (q := (x `div` 10)%N) in *. set (r := (x `mod` 10)%N) in *.
    set (P := (10 ^ k)%N). lia.
Qed.

Lemma isdigit_py_str (n : Z) : isdigit (py_str n) = bool_decide (0 ≤ n).
Proof.
  unfold py_str, pretty, pretty_Z. destruct n as [|p|p].
  - done.
  - rewrite bool_decide_eq_true_2 by lia. unfold isdigit.
    apply andb_true_iff. split.
    + apply negb_true_iff, String.eqb_neq, (pretty_N_nonempty (N.pos p)).
    + unfold pretty, pretty_positive, pretty, pretty_N.
      rewrite decide_False by done. apply all_digits_pretty_N_go.
  - by rewrite bool_decide_eq_false_2 by lia.
Qed.

Lemma int_of_digits_py_str (n : Z) : 0 ≤ n → int_of_digits (py_str n) = n.
Proof.
  intros Hn. unfold py_str, pretty, pretty_Z. destruct n as [|p|p];
    [done| |lia].
  unfold int_of_digits, pretty, pretty_positive, pretty, pretty_N.
  rewrite decide_False by done.
  destruct (digits_acc_pretty_N_go (N.pos p)) as [k Hk]. rewrite Hk. simpl.
  lia.
Qed.

(* ===================================================================== *)
(** ** The refresh command *)

(** How a refresh ends, and the entry it leaves for its tenant, depend on the
    store and on that entry only. *)
Lemma refresh_depends_on_store (cf : Gateway) (T : Z) (s1 s2 : State) :
  SessionLocal s1 = SessionLocal s2 → tenants s1 = tenants s2 →
  (refresh_tenant_domains cf T s1).1 = (refresh_tenant_domains cf T s2).1 ∧
  (tenants_cache s1 !! T = tenants_cache s2 !! T →
   tenants_cache (refresh_tenant_domains cf T s1).2 !! T
   = tenants_cache (refresh_tenant_domains cf T s2).2 !! T).
Proof.
  intros Hc Ht.
  assert (get_tenant_by_id T s1 = get_tenant_by_id T s2) as Hg
      by (unfold get_tenant_by_id; by rewrite Hc, Ht).
  destruct (get_tenant_by_id T s2) as [tenant|] eqn:E2.
  - destruct (refresh_cases cf T s1 tenant Hg)
      as [(e & Hz & ->)|[(zones & e & Hz & Ha & ->)
                         |(zones & a0 & Hz & Ha & ->)]];
      destruct (refresh_cases cf T s2 tenant E2)
        as [(e' & Hz' & ->)|[(zones' & e' & Hz' & Ha' & ->)
                             |(zones' & a0' & Hz' & Ha' & ->)]];
      simpl; rewrite Hz in Hz'; try done; injection Hz' as <-;
      try (rewrite Ha in Ha'; try done; injection Ha' as <-); try done.
    split; [done|]. intros _. by rewrite !lookup_insert_eq.
  - unfold refresh_tenant_domains. by rewrite Hg, E2.
Qed.

(** The loop of [refresh_command] over tenants with pairwise distinct ids. *)
Lemma refresh_loop (cf : Gateway) (l : list (Z * Tenant)) :
  NoDup l.*1 → ∀ (n : nat) (s : State),
  let r := foldl (refresh_one cf) (n, s) l in
  r.1 = (n + length (filter
                       (λ kt, is_returns (refresh_tenant_domains cf kt.1 s).1
                              = true) l))%nat ∧
  (SessionLocal r.2 = SessionLocal s ∧ tenants r.2 = tenants s ∧
   bot_config r.2 = bot_config s ∧ super_admin_id r.2 = super_admin_id s) ∧
  (∀ i, i ∉ l.*1 → tenants_cache r.2 !! i = tenants_cache s !! i) ∧
  (∀ i, i ∈ l.*1 →
        tenants_cache r.2 !! i
        = tenants_cache (refresh_tenant_domains cf i s).2 !! i).
Proof.
  induction l as [|[i0 t0] l IH]; intros Hnd n s.
  { simpl. split; [lia|]. split; [done|]. split; [done|].
    by intros i ?%elem_of_nil. }
  apply NoDup_cons in Hnd as [Hi0 Hnd]. simpl.
  set (s' := (refresh_tenant_domains cf i0 s).2).
  destruct (refresh_frame cf i0 s) as (F1 & F2 & F3 & F4). fold s' in F1, F2, F3, F4.
  assert (∀ i, i ≠ i0 → tenants_cache s' !! i = tenants_cache s !! i) as Hoth
      by (intros i Hne; by apply (refresh_other_entries cf s i0 i)).
  set (n' := if is_returns (refresh_tenant_domains cf i0 s).1 then S n else n).
  assert (refresh_one cf (n, s) (i0, t0) = (n', s')) as ->.
  { unfold refresh_one, n', s'. simpl.
    by destruct (refresh_tenant_domains cf i0 s) as [[u|e] s0]. }
  destruct (IH Hnd n' s') as (Hcount & (G1 & G2 & G3 & G4) & Hout & Hin).
  split; [|split; [|split]].
  - rewrite Hcount.
    rewrite (list_filter_iff
               (λ kt, is_returns (refresh_tenant_domains cf kt.1 s').1 = true)
               (λ kt, is_returns (refresh_tenant_domains cf kt.1 s).1 = true));
      [|intros [i t]; simpl;
        by rewrite (proj1 (refresh_depends_on_store cf i s' s F2 F4))].
    rewrite filter_cons. simpl. unfold n'.
    destruct (is_returns (refresh_tenant_domains cf i0 s).1) eqn:E.
    + rewrite decide_True by done. simpl. lia.
    + rewrite decide_False by congruence. lia.
  - by rewrite G1, G2, G3, G4.
  - intros i Hi. simpl in Hi. rewrite not_elem_of_cons in Hi.
    destruct Hi as [Hne Hi]. rewrite (Hout i Hi). by apply Hoth.
  - intros i Hi. simpl in Hi. apply elem_of_cons in Hi as [->|Hi].
    + by rewrite (Hout i0 Hi0).
    + rewrite (Hin i Hi).
      apply (refresh_depends_on_store cf i s' s F2 F4).
      apply Hoth. intros ->. done.
Qed.

Lemma get_tenants_frame (utcnow : Z) (user_id : option Z) (s : State) :
  let s' := (get_tenants utcnow user_id s).2 in
  SessionLocal s' = SessionLocal s ∧ tenants s' = tenants s ∧
  tenants_cache s' = tenants_cache s ∧ gateway_calls s' = gateway_calls s.
Proof.
  unfold get_tenants. destruct (SessionLocal s) eqn:Hc; simpl; [|done].
  destruct user_id as [u|]; simpl; [|done].
  destruct (negb (u =? 0)); simpl; [|done].
  pose proof (is_super_admin_frame utcnow u s) as (F1 & F2 & F3 & F4).
  destruct (is_super_admin utcnow u s) as [b s1]. simpl in *.
  rewrite Hc in F1. by destruct b.
Qed.

Lemma get_tenants_listed (utcnow : Z) (user_id : option Z) (s : State)
    (i : Z) (t : Tenant) :
  (i, t) ∈ (get_tenants utcnow user_id s).1 →
  tenants s !! i = Some t ∧ is_active t = Some true ∧
  (∀ u, user_id = Some u → u ≠ 0 → (is_super_admin utcnow u s).1 = false →
        admin_user_id t = py_str u).
Proof.
  unfold get_tenants. destruct (SessionLocal s) eqn:Hc; simpl;
    [|by intros ?%elem_of_nil].
  destruct user_id as [u|]; simpl.
  - destruct (Z.eqb_spec u 0) as [->|Hu]; simpl.
    + rewrite select_tenants_elem, active_true. intros [? ?].
      split; [done|]. split; [done|]. by intros ? [= <-].
    + pose proof (is_super_admin_frame utcnow u s) as (_ & Ft & _ & _).
      destruct (is_super_admin utcnow u s) as [b s1] eqn:E. simpl in *.
      destruct b; simpl; rewrite select_tenants_elem, Ft.
      * rewrite active_true. intros [? ?]. split; [done|]. split; [done|].
        intros ? [= <-] _ Hf. by rewrite E in Hf.
      * rewrite andb_true_iff, bool_decide_eq_true, active_true.
        intros [? [? ?]]. split; [done|]. split; [done|]. by intros ? [= <-].
  - rewrite select_tenants_elem, active_true. intros [? ?].
    split; [done|]. split; [done|]. done.
Qed.

Lemma get_tenants_NoDup (utcnow : Z) (user_id : option Z) (s : State) :
  NoDup (get_tenants utcnow user_id s).1.*1.
Proof.
  assert (∀ w st, NoDup (select_tenants w st).*1) as Hsel.
  { intros w st. unfold select_tenants.
    eapply sublist_NoDup; [apply (NoDup_fst_map_to_list (tenants st))|].
    apply fmap_sublist, sublist_filter. }
  unfold get_tenants. destruct (SessionLocal s); simpl; [|constructor].
  destruct user_id as [u|]; simpl; [|apply Hsel].
  destruct (negb (u =? 0)); simpl; [|apply Hsel].
  destruct (is_super_admin utcnow u s) as [b s1]. destruct b; apply Hsel.
Qed.

Lemma refresh_command_unfold (utcnow : Z) (cf : Gateway) (user : User)
    (s : State) :
  let listed := (get_tenants utcnow (Some (tg_id user)) s).1 in
  let s1 := (get_tenants utcnow (Some (tg_id user)) s).2 in
  let loop := foldl (refresh_one cf) (0%nat, s1) listed in
  refresh_command utcnow cf
    {| effective_user := Some user; message := true |} s
  = (match listed with
     | [] => [ReplyNoTenantsFound]
     | _ :: _ => [ReplyRefreshing; ReplyCacheRefreshed loop.1 (length listed)]
     end, loop.2).
Proof.
  simpl. unfold refresh_command. simpl.
  destruct (get_tenants utcnow (Some (tg_id user)) s) as [listed s1]. simpl.
  destruct listed as [|x l]; [done|].
  by destruct (foldl (refresh_one cf) (0%nat, s1) (x :: l)).
Qed.

Lemma refresh_command_cache (utcnow : Z) (cf : Gateway) (user : User)
    (s : State) :
  let listed := (get_tenants utcnow (Some (tg_id user)) s).1 in
  let s1 := (get_tenants utcnow (Some (tg_id user)) s).2 in
  let r := refresh_command utcnow cf
             {| effective_user := Some user; message := true |} s in
  (∀ i, i ∈ listed.*1 →
        tenants_cache r.2 !! i
        = tenants_cache (refresh_tenant_domains cf i s1).2 !! i) ∧
  (∀ i, i ∉ listed.*1 → tenants_cache r.2 !! i = tenants_cache s !! i) ∧
  tenants r.2 = tenants s.
Proof.
  simpl. rewrite refresh_command_unfold. simpl.
  destruct (get_tenants_frame utcnow (Some (tg_id user)) s)
    as (_ & Ft & Fc & _). simpl in *.
  destruct (refresh_loop cf _ (get_tenants_NoDup utcnow (Some (tg_id user)) s)
              0%nat (get_tenants utcnow (Some (tg_id user)) s).2)
    as (_ & (_ & G2 & _) & Hout & Hin). simpl in *.
  split; [done|]. split.
  - intros i Hi. by rewrite (Hout i Hi), Fc.
  - by rewrite G2.
Qed.

(** X17. The refresh command refreshes what [get_tenants] lists for the
    sender and nothing else: the cache entry of each listed tenant is the one
    a single refresh of that tenant leaves, every other entry is untouched,
    and the tenants table is unchanged. *)
Theorem refresh_command_refreshes_the_listing
    (utcnow : Z) (cf : Gateway) (user : User) (s : State) :
  let listed := (get_tenants utcnow (Some (tg_id user)) s).1 in
  let s1 := (get_tenants utcnow (Some (tg_id user)) s).2 in
  let r := refresh_command utcnow cf
             {| effective_user := Some user; message := true |} s in
  (∀ i, i ∈ listed.*1 →
        tenants_cache r.2 !! i
        = tenants_cache (refresh_tenant_domains cf i s1).2 !! i) ∧
  (∀ i, i ∉ listed.*1 → tenants_cache r.2 !! i = tenants_cache s !! i) ∧
  tenants r.2 = tenants s.
Proof. apply refresh_command_cache. Qed.

(** X18. The report of the refresh command: with nothing listed it says so
    and calls no provider; otherwise it announces the refresh and reports,
    out of the number of listed tenants, how many refreshes returned, a
    failed one not stopping those after it. *)
Theorem refresh_command_report
    (utcnow : Z) (cf : Gateway) (user : User) (s : State) :
  let listed := (get_tenants utcnow (Some (tg_id user)) s).1 in
  let s1 := (get_tenants utcnow (Some (tg_id user)) s).2 in
  let r := refresh_command utcnow cf
             {| effective_user := Some user; message := true |} s in
  (listed = [] →
   r.1 = [ReplyNoTenantsFound] ∧ gateway_calls r.2 = gateway_calls s) ∧
  (listed ≠ [] →
   ∃ n, r.1 = [ReplyRefreshing; ReplyCacheRefreshed n (length listed)] ∧
        n = length (filter
                      (λ kt, is_returns (refresh_tenant_domains cf kt.1 s1).1
                             = true) listed) ∧
        (n ≤ length listed)%nat).
Proof.
  simpl. rewrite refresh_command_unfold. simpl.
  destruct (get_tenants_frame utcnow (Some (tg_id user)) s)
    as (_ & _ & _ & Fg). simpl in *.
  destruct (refresh_loop cf _ (get_tenants_NoDup utcnow (Some (tg_id user)) s)
              0%nat (get_tenants utcnow (Some (tg_id user)) s).2)
    as (Hcount & _). simpl in *.
  split.
  - intros E. rewrite E. simpl. done.
  - intros Hne. eexists. split; [|split; [exact Hcount|]].
    + by destruct (get_tenants utcnow (Some (tg_id user)) s).1.
    + rewrite Hcount. apply length_filter.
Qed.

Lemma refresh_command_report_witness :
  let user := {| tg_id := 42; tg_username := None |} in
  let listed := (get_tenants 1000 (Some 42) connected).1 in
  let s1 := (get_tenants 1000 (Some 42) connected).2 in
  let r := refresh_command 1000 cf_down
             {| effective_user := Some user; message := true |} connected in
  ∃ n, r.1 = [ReplyRefreshing; ReplyCacheRefreshed n (length listed)] ∧
       n = length (filter
                     (λ kt, is_returns
                              (refresh_tenant_domains cf_down kt.1 s1).1
                            = true) listed) ∧
       (n ≤ length listed)%nat.
Proof.
  apply (refresh_command_report 1000 cf_down
           {| tg_id := 42; tg_username := None |} connected).
  vm_compute. discriminate.
Defined.

Lemma refresh_command_unlisted (utcnow : Z) (cf : Gateway) (update : Update)
    (s : State) (T : Z) :
  (∀ user, effective_user update = Some user →
           T ∉ (get_tenants utcnow (Some (tg_id user)) s).1.*1) →
  tenants_cache (refresh_command utcnow cf update s).2 !! T
  = tenants_cache s !! T.
Proof.
  intros Hun. destruct update as [[user|] [|]]; try done.
  apply refresh_command_cache. by apply Hun.
Qed.

(** X19. The refresh command never reaches beyond the sender's tenants: the
    cache entry of an id with no tenant row, or of a tenant whose flag is not
    true, is left alone whoever sends the command; and a sender who is not
    the super admin leaves alone the entry of every tenant administered by
    somebody else. *)
Theorem refresh_command_stays_in_scope
    (utcnow : Z) (cf : Gateway) (update : Update) (s : State) (T : Z) :
  let s' := (refresh_command utcnow cf update s).2 in
  (tenants s !! T = None → tenants_cache s' !! T = tenants_cache s !! T) ∧
  (∀ t, tenants s !! T = Some t → is_active t ≠ Some true →
        tenants_cache s' !! T = tenants_cache s !! T) ∧
  (∀ user t, effective_user update = Some user → tg_id user ≠ 0 →
             (is_super_admin utcnow (tg_id user) s).1 = false →
             tenants s !! T = Some t → admin_user_id t ≠ py_str (tg_id user) →
             tenants_cache s' !! T = tenants_cache s !! T).
Proof.
  simpl. split; [|split].
  - intros Hnone. apply refresh_command_unlisted.
    intros user _ [[i t] [-> Hin]]%list_elem_of_fmap.
    apply get_tenants_listed in Hin as (Ht & _). simpl in *. congruence.
  - intros t Ht Hact. apply refresh_command_unlisted.
    intros user _ [[i t'] [-> Hin]]%list_elem_of_fmap.
    apply get_tenants_listed in Hin as (Ht' & Ha & _). simpl in *. congruence.
  - intros user t Hu Hnz Hsa Ht Hadm. apply refresh_command_unlisted.
    intros user' Hu' [[i t'] [-> Hin]]%list_elem_of_fmap.
    rewrite Hu in Hu'. injection Hu' as <-.
    apply get_tenants_listed in Hin as (Ht' & _ & Hown). simpl in *.
    rewrite Ht in Ht'. injection Ht' as <-.
    by apply Hadm, (Hown (tg_id user)).
Qed.

Lemma refresh_command_stays_in_scope_witness :
  let cf := cf_with [zone_obj "z1ize" "acme.com" "active"] [] in
  let update := {| effective_user := Some {| tg_id := 42; tg_username := None |};
                   message := true |} in
  tenants_cache (refresh_command 1000 cf update connected).2 !! 9
  = tenants_cache connected !! 9.
Proof.
  apply (proj1 (proj2 (refresh_command_stays_in_scope 1000
                         (cf_with [zone_obj "z1ize" "acme.com" "active"] [])
                         {| effective_user :=
                              Some {| tg_id := 42; tg_username := None |};
                            message := true |} connected 9)) retired);
    [reflexivity | discriminate].
Defined.

(* ===================================================================== *)
(** ** Connecting a provider account *)

Lemma has_access_frame (utcnow u : Z) (t : option Z) (s : State) :
  let s' := (has_access utcnow u t s).2 in
  SessionLocal s' = SessionLocal s ∧ tenants s' = tenants s ∧
  tenants_cache s' = tenants_cache s ∧ gateway_calls s' = gateway_calls s.
Proof.
  pose proof (is_super_admin_frame utcnow u s) as F. unfold has_access.
  destruct (is_super_admin utcnow u s) as [b s1]. simpl in *.
  destruct b; [done|]. by destruct (truthy_int t).
Qed.








(* ===================================================================== *)
(** ** Creating a tenant *)

(** The row [add_tenant_command] inserts. *)
Lemma add_tenant_inversion (utcnow new_id : Z) (update : Update)
    (args : option (list string)) (s : State) (id : Z) (nm adm d : string) :
  (add_tenant_command utcnow new_id update args s).1
    = [ReplyTenantCreated id nm adm d] →
  ∃ user more,
    effective_user update = Some user ∧ message update = true ∧
    args = Some (nm :: adm :: more) ∧ id = new_id ∧
    d = or_na (match more with [] => None | _ :: _ => Some (join_space more) end) ∧
    isdigit adm = true ∧ SessionLocal s = true ∧
    (is_super_admin utcnow (tg_id user) s).1 = true ∧
    tenants s !! new_id = None ∧
    (∀ i t, tenants s !! i = Some t → name t ≠ nm) ∧
    (add_tenant_command utcnow new_id update args s).2
    = set_tenants
        (<[new_id := {| name := nm; cloudflare_token := "";
                        admin_user_id := adm;
                        description :=
                          match more with
                          | [] => None
                          | _ :: _ => Some (join_space more)
                          end;
                        is_active := Some true;
                        created_at := Some utcnow |}]> (tenants s))
        (is_super_admin utcnow (tg_id user) s).2.
Proof.
  unfold add_tenant_command.
  destruct (effective_user update) as [user|] eqn:Hu; [|done].
  destruct (message update) eqn:Hm; simpl; [|done].
  pose proof (is_super_admin_frame utcnow (tg_id user) s)
    as (F1 & F2 & _ & _).
  destruct (is_super_admin utcnow (tg_id user) s) as [super s1] eqn:Esa.
  simpl in *.
  destruct super; simpl; [|done].
  destruct args as [[|tenant_name [|admin more]]|]; try done.
  destruct (isdigit admin) eqn:Hd; simpl; [|done].
  destruct (SessionLocal s1) eqn:Hc; simpl; [|done].
  destruct (select_tenants _ s1) as [|x [|y l]] eqn:Hsel; try done.
  destruct (tenants s1 !! new_id) eqn:Hnew; [done|]. simpl.
  intros [= <- <- <- <-]. exists user, more.
  rewrite <- F2, <- F1.
  split; [done|]. split; [done|]. split; [done|]. split; [done|].
  split; [done|]. split; [done|]. split; [done|].
  split; [by rewrite Esa|]. split; [done|]. split; [|by rewrite Esa].
  intros i t Hi Hname.
  assert ((i, t) ∈ select_tenants (λ t, bool_decide (name t = tenant_name)) s1)
    as Hin by (apply select_tenants_elem; by rewrite bool_decide_eq_true).
  rewrite Hsel in Hin. inversion Hin.
Qed.

(** X23. A tenant is created only by the super admin, under a name no row
    carried, with an admin id made of digits: the confirmed creation inserts
    exactly one row, active and without token, under the id the database
    gave, and leaves every other row and the cache as they were. *)
Theorem add_tenant_confirmed
    (utcnow new_id : Z) (update : Update) (args : option (list string))
    (s : State) (id : Z) (nm adm d : string) :
  let r := add_tenant_command utcnow new_id update args s in
  r.1 = [ReplyTenantCreated id nm adm d] →
  id = new_id ∧ isdigit adm = true ∧
  (∃ user, effective_user update = Some user ∧
           (is_super_admin utcnow (tg_id user) s).1 = true) ∧
  tenants s !! id = None ∧
  (∀ i t, tenants s !! i = Some t → name t ≠ nm) ∧
  (∃ t, tenants r.2 = <[id := t]> (tenants s) ∧
        name t = nm ∧ admin_user_id t = adm ∧ cloudflare_token t = ""%string ∧
        is_active t = Some true ∧ created_at t = Some utcnow ∧
        or_na (description t) = d) ∧
  tenants_cache r.2 = tenants_cache s.
Proof.
  simpl. intros Hr.
  destruct (add_tenant_inversion _ _ _ _ _ _ _ _ _ Hr)
    as (user & more & Hu & Hm & -> & -> & -> & Hd & Hc & Hsa & Hnew & Hnames
        & ->).
  pose proof (is_super_admin_frame utcnow (tg_id user) s) as (_ & _ & F3 & _).
  split; [done|]. split; [done|]. split; [eauto|]. split; [done|].
  split; [done|]. split; [|done].
  eexists. split; [reflexivity|]. done.
Qed.

Lemma add_tenant_confirmed_witness :
  let s := (is_super_admin 500 42 connected).2 in
  let update := {| effective_user := Some {| tg_id := 42; tg_username := None |};
                   message := true |} in
  let r := add_tenant_command 1000 10 update
             (Some ["Umbrella"; "45"; "third"; "workspace"]%string) s in
  10 = 10 ∧ isdigit "45" = true ∧
  (∃ user, effective_user update = Some user ∧
           (is_super_admin 1000 (tg_id user) s).1 = true) ∧
  tenants s !! 10 = None ∧
  (∀ i t, tenants s !! i = Some t → name t ≠ "Umbrella"%string) ∧
  (∃ t, tenants r.2 = <[10 := t]> (tenants s) ∧
        name t = "Umbrella"%string ∧ admin_user_id t = "45"%string ∧
        cloudflare_token t = ""%string ∧
        is_active t = Some true ∧ created_at t = Some 1000 ∧
        or_na (description t) = "third workspace"%string) ∧
  tenants_cache r.2 = tenants_cache s.
Proof.
  apply (add_tenant_confirmed 1000 10
           {| effective_user := Some {| tg_id := 42; tg_username := None |};
              message := true |}
           (Some ["Umbrella"; "45"; "third"; "workspace"]%string)
           (is_super_admin 500 42 connected).2 10 "Umbrella" "45"
           "third workspace").
  reflexivity.
Defined.

Lemma add_tenant_tables (utcnow new_id : Z) (update : Update)
    (args : option (list string)) (s : State) :
  let r := add_tenant_command utcnow new_id update args s in
  tenants_cache r.2 = tenants_cache s ∧
  (tenants r.2 = tenants s ∨
   ∃ id nm adm d, r.1 = [ReplyTenantCreated id nm adm d]).
Proof.
  simpl. unfold add_tenant_command.
  destruct (effective_user update) as [user|]; [|auto].
  destruct (message update); simpl; [|auto].
  pose proof (is_super_admin_frame utcnow (tg_id user) s)
    as (F1 & F2 & F3 & _).
  destruct (is_super_admin utcnow (tg_id user) s) as [super s1]. simpl in *.
  destruct super; simpl; [|auto].
  destruct args as [[|tenant_name [|admin more]]|]; auto.
  destruct (isdigit admin); simpl; [|auto].
  destruct (SessionLocal s1); simpl; [|auto].
  destruct (select_tenants _ s1) as [|x [|y l]]; auto.
  destruct (tenants s1 !! new_id); simpl; [auto|]. split; [done|].
  right. eauto.
Qed.



(** X25. Tenant names stay unique: if no two rows of the tenants table carry
    the same name, the same holds after [add_tenant_command], whatever the
    sender, the arguments and the id the database picks. *)
Theorem add_tenant_keeps_names_unique
    (utcnow new_id : Z) (update : Update) (args : option (list string))
    (s : State) :
  (∀ i j t t', tenants s !! i = Some t → tenants s !! j = Some t' →
               name t = name t' → i = j) →
  let s' := (add_tenant_command utcnow new_id update args s).2 in
  ∀ i j t t', tenants s' !! i = Some t → tenants s' !! j = Some t' →
              name t = name t' → i = j.
Proof.
  intros Huniq. simpl.
  destruct (add_tenant_tables utcnow new_id update args s)
    as [_ [->|(id & nm & adm & d & Hr)]]; [done|].
  destruct (add_tenant_inversion _ _ _ _ _ _ _ _ _ Hr)
    as (user & more & Hu & Hm & -> & -> & -> & Hd & Hc & Hsa & Hnew & Hnames
        & ->).
  simpl. intros i j t t' Hi Hj Hname.
  destruct (decide (i = new_id)) as [->|Hin], (decide (j = new_id)) as [->|Hjn];
    [done|..].
  - rewrite lookup_insert_eq in Hi. rewrite lookup_insert_ne in Hj by done.
    injection Hi as <-. simpl in Hname. by destruct (Hnames j t').
  - rewrite lookup_insert_eq in Hj. rewrite lookup_insert_ne in Hi by done.
    injection Hj as <-. simpl in Hname. by destruct (Hnames i t).
  - rewrite lookup_insert_ne in Hi, Hj by done. eauto.
Qed.

Lemma add_tenant_keeps_names_unique_witness :
  let s := (is_super_admin 500 42 connected).2 in
  let s' := (add_tenant_command 1000 10
               {| effective_user := Some {| tg_id := 42; tg_username := None |};
                  message := true |}
               (Some ["Umbrella"; "45"]%string) s).2 in
  is_Some (tenants s' !! 10) ∧ 8 = 8.
Proof.
  split; [vm_compute; eauto|].
  apply (add_tenant_keeps_names_unique 1000 10
           {| effective_user := Some {| tg_id := 42; tg_username := None |};
              message := true |}
           (Some ["Umbrella"; "45"]%string)
           (is_super_admin 500 42 connected).2)
    with (t := globex) (t' := globex); try reflexivity.
  intros i j t t' Hi Hj Hname.
  assert (∀ k x, tenants (is_super_admin 500 42 connected).2 !! k = Some x →
                 (k = 7 ∧ x = acme) ∨ (k = 8 ∧ x = globex)
                 ∨ (k = 9 ∧ x = retired)) as Hrows.
  { intros k x. change (tenants (is_super_admin 500 42 connected).2)
      with sample_tenants. unfold sample_tenants.
    rewrite !lookup_insert_Some, lookup_singleton_Some.
    intros [[<- <-]|[_ [[<- <-]|[_ [<- <-]]]]]; auto. }
  destruct (Hrows i t Hi) as [[-> ->]|[[-> ->]|[-> ->]]],
           (Hrows j t' Hj) as [[-> ->]|[[-> ->]|[-> ->]]];
    done.
Defined.





(* ===================================================================== *)
(** ** Tenant information *)

(** The answer of [is_super_admin] depends on the super admin in memory, on
    the session factory and on the configuration only. *)
Lemma is_super_admin_ext (now now' u : Z) (s s' : State) :
  super_admin_id s' = super_admin_id s → SessionLocal s' = SessionLocal s →
  bot_config s' = bot_config s →
  (is_super_admin now' u s').1 = (is_super_admin now u s).1.
Proof.
  intros H1 H2 H3. unfold is_super_admin. rewrite H1, H2, H3.
  destruct (truthy_str (super_admin_id s)); simpl; [done|].
  destruct (SessionLocal s); simpl; [|done].
  by destruct (bot_config s !! "super_admin_id"%string).
Qed.



(** [tenant_info_command] on a tenant id written in decimal. *)
Lemma tenant_info_unfold (utcnow : Z) (user : User) (T : Z)
    (rest : list string) (s : State) :
  0 ≤ T →
  tenant_info_command utcnow
    {| effective_user := Some user; message := true |}
    (Some (py_str T :: rest)) s
  = let granted := (has_access utcnow (tg_id user) (Some T) s).1 in
    let s1 := (has_access utcnow (tg_id user) (Some T) s).2 in
    if negb granted then (Returns [ReplyAccessDenied], s1)
    else
      match get_tenant_by_id T s with
      | None => (Returns [ReplyTenantNotFound T], s1)
      | Some tenant =>
          match created_at tenant with
          | None => (Raises (AttributeError "strftime"), s1)
          | Some created =>
              (Returns
                 [ReplyTenantInfo
                    {| info_id := T; info_name := name tenant;
                       info_admin := admin_user_id tenant;
                       info_description := or_na (description tenant);
                       info_connected :=
                         negb (String.eqb (cloudflare_token tenant) "");
                       info_loaded :=
                         bool_decide (is_Some (tenants_cache s !! T));
                       info_created := created;
                       info_active := active tenant;
                       info_counts :=
                         (λ cache, (size (ce_domains cache),
                                    size (ce_tunnels cache)))
                         <$> tenants_cache s !! T |}], s1)
          end
      end.
Proof.
  intros HT. unfold tenant_info_command. simpl.
  rewrite isdigit_py_str, bool_decide_eq_true_2, int_of_digits_py_str by done.
  simpl.
  destruct (has_access_frame utcnow (tg_id user) (Some T) s)
    as (F1 & F2 & F3 & F4). simpl in *.
  destruct (has_access utcnow (tg_id user) (Some T) s) as [granted s1].
  simpl in *. destruct granted; simpl; [|done].
  unfold get_tenant_by_id. rewrite F1, F2, F3. done.
Qed.



(** The answer of [has_access] depends on the super admin in memory, the
    session factory, the configuration and the tenants table only. *)
Lemma has_access_ext (now now' u : Z) (t : option Z) (s s' : State) :
  super_admin_id s' = super_admin_id s → SessionLocal s' = SessionLocal s →
  bot_config s' = bot_config s → tenants s' = tenants s →
  (has_access now' u t s').1 = (has_access now u t s).1.
Proof.
  intros H1 H2 H3 H4.
  pose proof (is_super_admin_ext now now' u s s' H1 H2 H3) as Hsa.
  pose proof (is_super_admin_frame now u s) as (F1 & F2 & _).
  pose proof (is_super_admin_frame now' u s') as (G1 & G2 & _).
  unfold has_access.
  destruct (is_super_admin now u s) as [b s1],
           (is_super_admin now' u s') as [b' s1']. simpl in *. subst b'.
  destruct b; [done|].
  assert (∀ x, is_tenant_admin u x s1' = is_tenant_admin u x s1) as Hta
      by (intros x; apply is_tenant_admin_frame; congruence).
  destruct (truthy_int t); simpl; apply Hta.
Qed.




(** X29. After a refresh that returned, the tenant information asked by a
    sender with access shows the cache as loaded, with the numbers of
    entries of the [domains] and [tunnels] indices just committed. *)
Theorem tenant_info_after_refresh
    (utcnow : Z) (cf : Gateway) (user : User) (T : Z) (rest : list string)
    (s : State) (tenant : Tenant) (c : Z) :
  0 ≤ T →
  get_tenant_by_id T s = Some tenant → created_at tenant = Some c →
  (refresh_tenant_domains cf T s).1 = Returns tt →
  (has_access utcnow (tg_id user) (Some T) s).1 = true →
  ∃ info entry,
    (tenant_info_command utcnow
       {| effective_user := Some user; message := true |}
       (Some (py_str T :: rest)) (refresh_tenant_domains cf T s).2).1
      = Returns [ReplyTenantInfo info] ∧
    tenants_cache (refresh_tenant_domains cf T s).2 !! T = Some entry ∧
    ce_tenant entry = (T, tenant) ∧
    info_loaded info = true ∧
    info_counts info
      = Some (size (ce_domains entry), size (ce_tunnels entry)).
Proof.
  intros HT Ht Hcreated Hok Hacc.
  destruct (refresh_frame cf T s) as (H1 & H2 & H3 & H4). simpl in *.
  destruct (refresh_success cf T s tenant Ht Hok)
    as (zones & a0 & _ & _ & Hcache). simpl in Hcache.
  rewrite tenant_info_unfold by done. cbv zeta.
  rewrite (has_access_ext utcnow utcnow _ _ s) by done. rewrite Hacc. simpl.
  assert (get_tenant_by_id T (refresh_tenant_domains cf T s).2 = Some tenant)
    as -> by (revert Ht; unfold get_tenant_by_id; by rewrite H2, H4).
  rewrite Hcreated, Hcache, lookup_insert_eq. simpl.
  eexists _, _. split; [done|]. split; [done|]. simpl.
  split; [by edestruct build_entry_indices as (_ & _ & _ & _ & ->)|].
  done.
Qed.

Lemma tenant_info_after_refresh_witness :
  let s := (is_super_admin 500 42 connected).2 in
  let s0 := set_tenants
              (<[8 := {| name := "Globex"; cloudflare_token := "tok_xyz";
                         admin_user_id := "43"; description := None;
                         is_active := Some true; created_at := Some 77 |}]>
                 (tenants s)) s in
  let cf := cf_with [zone_obj "z1ize" "acme.com" "active"]
                    [tunnel_obj "t1" "office"] in
  ∃ info entry,
    (tenant_info_command 1000
       {| effective_user := Some {| tg_id := 42; tg_username := None |};
          message := true |}
       (Some [py_str 8]) (refresh_tenant_domains cf 8 s0).2).1
      = Returns [ReplyTenantInfo info] ∧
    tenants_cache (refresh_tenant_domains cf 8 s0).2 !! 8 = Some entry ∧
    ce_tenant entry
      = (8, {| name := "Globex"; cloudflare_token := "tok_xyz";
               admin_user_id := "43"; description := None;
               is_active := Some true; created_at := Some 77 |}) ∧
    info_loaded info = true ∧
    info_counts info
      = Some (size (ce_domains entry), size (ce_tunnels entry)).
Proof.
  apply (tenant_info_after_refresh 1000
           (cf_with [zone_obj "z1ize" "acme.com" "active"]
                    [tunnel_obj "t1" "office"])
           {| tg_id := 42; tg_username := None |} 8 []
           (set_tenants
              (<[8 := {| name := "Globex"; cloudflare_token := "tok_xyz";
                         admin_user_id := "43"; description := None;
                         is_active := Some true; created_at := Some 77 |}]>
                 (tenants (is_super_admin 500 42 connected).2))
              (is_super_admin 500 42 connected).2)
           {| name := "Globex"; cloudflare_token := "tok_xyz";
              admin_user_id := "43"; description := None;
              is_active := Some true; created_at := Some 77 |} 77);
    (reflexivity || lia).
Defined.
